(** * biocyc-extractor: a shallow embedding of [extract_data.py]

    The script parses BioCyc flat files, fills in missing chemical
    attributes from a link table, the BioCyc database and PubChem, and
    writes two tab-separated tables.  This development embeds the class
    [BioCycData] of [src/extract_data.py] and proves properties of it.

    Conventions of the embedding:
    - a Python [str] is a [string]; its characters are 8-bit, as the
      data files are read with the ISO-8859-1 codec;
    - a value that may be [None] is a [pyval];
    - a Python [dict] is an insertion-ordered association list;
    - a raised exception is [Raise]: every handler of the script is a
      bare [except:], so the kind of exception is never observed;
    - calls to the two external services go through a state monad that
      threads the state of the outside world and logs every query;
      every call is taken to answer or to raise.

    The file system, the command line and the reactions half of
    [write_data] are not part of the embedding. *)

From Stdlib Require Import String Ascii List Bool Arith ZArith Lia.
Import ListNotations.
Open Scope string_scope.

(** ** Python string operations used by the script *)

Module PyStr.

Definition TAB : string := String "009"%char "".
Definition NL : string := String "010"%char "".

(** [str.isspace] on one character of the Latin-1 range. *)
Definition isspace_char (c : ascii) : bool :=
  let n := nat_of_ascii c in
  ((9 <=? n)%nat && (n <=? 13)%nat) || ((28 <=? n)%nat && (n <=? 32)%nat)
  || (n =? 133)%nat || (n =? 160)%nat.

Fixpoint all_space (s : string) : bool :=
  match s with
  | EmptyString => true
  | String c s' => isspace_char c && all_space s'
  end.

(** [s.isspace()]: at least one character, and all of them whitespace. *)
Definition isspace (s : string) : bool :=
  match s with
  | EmptyString => false
  | String _ _ => all_space s
  end.

Fixpoint lstrip (s : string) : string :=
  match s with
  | EmptyString => EmptyString
  | String c s' => if isspace_char c then lstrip s' else s
  end.

Fixpoint rstrip (s : string) : string :=
  match s with
  | EmptyString => EmptyString
  | String c s' =>
      match rstrip s' with
      | EmptyString => if isspace_char c then EmptyString else String c EmptyString
      | r => String c r
      end
  end.

(** [s.strip()] *)
Definition strip (s : string) : string := rstrip (lstrip s).

(** [s.startswith(p)] *)
Definition startswith (s p : string) : bool := String.prefix p s.

(** [s[n:]] *)
Fixpoint slice_from (n : nat) (s : string) : string :=
  match n, s with
  | O, _ => s
  | S k, EmptyString => EmptyString
  | S k, String _ s' => slice_from k s'
  end.

(** [s.endswith(p)] *)
Definition endswith (s p : string) : bool :=
  (String.length p <=? String.length s)%nat
  && String.eqb (slice_from (String.length s - String.length p) s) p.

(** [s.replace(c, '')] for a one-character [c]. *)
Fixpoint remove_char (c : ascii) (s : string) : string :=
  match s with
  | EmptyString => EmptyString
  | String d s' =>
      if Ascii.eqb d c then remove_char c s' else String d (remove_char c s')
  end.

(** [s.split(sep)] for a non-empty [sep]: the pieces between the
    non-overlapping occurrences of [sep], found from the left.  [skip]
    counts the characters of an occurrence still to be passed over and
    [acc] is the piece being read. *)
Fixpoint split_go (sep : string) (skip : nat) (acc s : string) : list string :=
  match s with
  | EmptyString => [acc]
  | String c s' =>
      match skip with
      | S k => split_go sep k acc s'
      | O =>
          if String.prefix sep s
          then acc :: split_go sep (String.length sep - 1) EmptyString s'
          else split_go sep 0 (acc ++ String c EmptyString) s'
      end
  end.

Definition split (sep s : string) : list string := split_go sep 0 EmptyString s.

(** [sep.join(l)] *)
Fixpoint join (sep : string) (l : list string) : string :=
  match l with
  | [] => EmptyString
  | [x] => x
  | x :: l' => x ++ sep ++ join sep l'
  end.

(** *** The pattern [<[^<>]*>]

    [tag_len s] is the length of the match of [[^<>]*>] at the start of
    [s], if there is one: the characters up to the next angle bracket,
    which has to be a closing one. *)
Definition is_lt (c : ascii) : bool := Ascii.eqb c "<"%char.
Definition is_gt (c : ascii) : bool := Ascii.eqb c ">"%char.

Fixpoint tag_len (s : string) : option nat :=
  match s with
  | EmptyString => None
  | String c s' =>
      if is_gt c then Some 1
      else if is_lt c then None
      else option_map S (tag_len s')
  end.

(** [re.sub('<[^<>]*>', '', s)]: every leftmost non-overlapping match is
    deleted.  A match can only start at a [<]; [skip] counts the
    characters of the current match still to be deleted. *)
Fixpoint sub_tags_go (skip : nat) (s : string) : string :=
  match s with
  | EmptyString => EmptyString
  | String c s' =>
      match skip with
      | S k => sub_tags_go k s'
      | O =>
          if is_lt c then
            match tag_len s' with
            | Some k => sub_tags_go k s'
            | None => String c (sub_tags_go 0 s')
            end
          else String c (sub_tags_go 0 s')
      end
  end.

Definition sub_tags (s : string) : string := sub_tags_go 0 s.

End PyStr.

(** ** Name normalization (lines 51-58 and 125-131)

    The same statements appear in [load_chem_links] and in
    [extract_chems]; both are embedded by [normalize_name]. *)

Definition exclude_chars : list ascii := ["&"; ";"; "["; "]"]%char.

(** [for char in exclude_chars: name = name.replace(char, '')] *)
Definition remove_chars (cs : list ascii) (name : string) : string :=
  fold_left (fun n c => PyStr.remove_char c n) cs name.

(** [if name.startswith('a '): ... elif name.startswith('an '): ...] *)
Definition drop_article (name : string) : string :=
  if PyStr.startswith name "a " then PyStr.slice_from 2 name
  else if PyStr.startswith name "an " then PyStr.slice_from 3 name
  else name.

Definition normalize_name (name : string) : string :=
  drop_article (PyStr.sub_tags (remove_chars exclude_chars name)).

(** ** Values, outcomes and dictionaries *)

(** A value that is either [None] or a [str]. *)
Inductive pyval : Type :=
  | PNone
  | PStr (s : string).

Definition is_none (v : pyval) : bool :=
  match v with PNone => true | PStr _ => false end.

Definition pyval_eqb (a b : pyval) : bool :=
  match a, b with
  | PNone, PNone => true
  | PStr x, PStr y => String.eqb x y
  | _, _ => false
  end.

(** [v != ''] *)
Definition ne_empty (v : pyval) : bool := negb (pyval_eqb v (PStr "")).

(** The result of evaluating an expression: a value, or an exception. *)
Inductive outcome (A : Type) : Type :=
  | Ret (a : A)
  | Raise.
Arguments Ret {A} a.
Arguments Raise {A}.

Definition obind {A B : Type} (o : outcome A) (k : A -> outcome B) : outcome B :=
  match o with
  | Ret a => k a
  | Raise => Raise
  end.

Definition returns {A : Type} (o : outcome A) : bool :=
  match o with Ret _ => true | Raise => false end.

(** Keys of a dictionary: a type with a boolean equality. *)
Class Key (K : Type) : Type := {
  key_eqb : K -> K -> bool;
  key_eqb_spec : forall a b, key_eqb a b = true <-> a = b
}.

Lemma pyval_eqb_spec (a b : pyval) : pyval_eqb a b = true <-> a = b.
Proof.
  destruct a as [|x], b as [|y]; simpl; split; intro H;
    try reflexivity; try discriminate.
  - apply String.eqb_eq in H. now subst.
  - injection H as ->. apply String.eqb_refl.
Qed.

#[export] Instance string_key : Key string :=
  {| key_eqb := String.eqb; key_eqb_spec := String.eqb_eq |}.
#[export] Instance pyval_key : Key pyval :=
  {| key_eqb := pyval_eqb; key_eqb_spec := pyval_eqb_spec |}.

(** A [dict]: the items in insertion order, every key at most once. *)
Definition dict (K V : Type) : Type := list (K * V).

(** [d[k]], [None] standing for [KeyError]; also [k in d]. *)
Fixpoint dict_get {K V : Type} `{Key K} (d : dict K V) (k : K) : option V :=
  match d with
  | [] => None
  | (k', v) :: d' => if key_eqb k' k then Some v else dict_get d' k
  end.

(** [d[k] = v]: an existing key keeps its place, a new one goes last. *)
Fixpoint dict_set {K V : Type} `{Key K} (d : dict K V) (k : K) (v : V) : dict K V :=
  match d with
  | [] => [(k, v)]
  | (k', v') :: d' =>
      if key_eqb k' k then (k', v) :: d' else (k', v') :: dict_set d' k v
  end.

Definition dict_keys {K V : Type} (d : dict K V) : list K := map fst d.

(** [entries[i]], raising [IndexError] past the end. *)
Definition getitem {A : Type} (l : list A) (i : nat) : outcome A :=
  match nth_error l i with
  | Some x => Ret x
  | None => Raise
  end.

(** ** Records of the script *)

(** A value of [chem_links]: the three strings of a line of the link file. *)
Record ChemLink : Type := {
  link_name : string;
  link_inchi : string;
  link_smiles : string
}.

(** A value of [chems]: the dictionary returned by [impute_chem]. *)
Record ChemValues : Type := {
  chem_name : pyval;
  chem_inchi : pyval;
  chem_smiles : pyval
}.

(** A value of [rxns]: the dictionary returned by [impute_rxn]. *)
Record RxnValues : Type := {
  reactant_names : list pyval;
  product_names : list pyval;
  reactant_ids : list string;
  product_ids : list string;
  direction : option Z
}.

(** ** The external services

    A BioCyc object is used through two attributes, a PubChem compound
    through three; reading an attribute yields [None], a string, or an
    exception. *)
Record Compound : Type := {
  compound_name : outcome pyval;
  compound_inchi : outcome pyval
}.

Record PubChemCompound : Type := {
  iupac_name : outcome pyval;
  pc_inchi : outcome pyval;
  canonical_smiles : outcome pyval
}.

(** The second argument of [pcp.get_compounds]. *)
Inductive namespace : Type :=
  | ByName
  | ByInchi
  | BySmiles.

(** A call made to a service. *)
Inductive query : Type :=
  | QBiocyc (id : pyval)
  | QPubChem (identifier : pyval) (ns : namespace).

Definition is_pubchem (q : query) : bool :=
  match q with QPubChem _ _ => true | QBiocyc _ => false end.

(** The services: each call sees the state of the world, answers or
    raises, and leaves a new state. *)
Record Services (World : Type) : Type := {
  biocyc_get : pyval -> World -> outcome (option Compound) * World;
  pcp_get_compounds :
    pyval -> namespace -> World -> outcome (list PubChemCompound) * World
}.
Arguments biocyc_get {World} _ _ _.
Arguments pcp_get_compounds {World} _ _ _ _.

(** ** The monad of the resolver: world state, query log, exceptions *)

Definition M (World A : Type) : Type :=
  World * list query -> outcome A * (World * list query).

Definition ret {W A : Type} (a : A) : M W A := fun st => (Ret a, st).

Definition lift {W A : Type} (o : outcome A) : M W A := fun st => (o, st).

Definition bind {W A B : Type} (m : M W A) (k : A -> M W B) : M W B :=
  fun st =>
    match m st with
    | (Ret a, st') => k a st'
    | (Raise, st') => (Raise, st')
    end.

(** [try: body  except: handler] *)
Definition try_except {W A : Type} (body handler : M W A) : M W A :=
  fun st =>
    match body st with
    | (Ret a, st') => (Ret a, st')
    | (Raise, st') => handler st'
    end.

Declare Scope py_scope.
Delimit Scope py_scope with py.
Notation "x <- m ;; k" := (bind m (fun x => k))
  (at level 61, m at next level, right associativity) : py_scope.
Open Scope py_scope.

(** The value and the log of a run from a world with an empty log. *)
Definition result_of {W A : Type} (m : M W A) (w : W) : outcome A :=
  fst (m (w, [])).
Definition queries_of {W A : Type} (m : M W A) (w : W) : list query :=
  snd (snd (m (w, []))).

(** ** The Imputation Resolver: [impute_chem] (lines 142-208) *)

Section Resolver.

Context {World : Type}.
Variable services : Services World.
Variable chem_links : dict string ChemLink.

(** [biocyc.get(id)] *)
Definition call_biocyc_get (id : pyval) : M World (option Compound) :=
  fun st =>
    let (r, w') := biocyc_get services id (fst st) in
    (r, (w', (snd st ++ [QBiocyc id])%list)).

(** [pcp.get_compounds(identifier, namespace)] *)
Definition call_get_compounds (identifier : pyval) (ns : namespace)
  : M World (list PubChemCompound) :=
  fun st =>
    let (r, w') := pcp_get_compounds services identifier ns (fst st) in
    (r, (w', (snd st ++ [QPubChem identifier ns])%list)).

(** Lines 144-148: [entry = self.chem_links[id]] under [try]; the keys
    of [chem_links] are strings, so [None] is never found.  The result is
    [Some entry] exactly when [in_links] is set. *)
Definition lookup_links (id : pyval) : option ChemLink :=
  match id with
  | PNone => None
  | PStr s => dict_get chem_links s
  end.

(** Lines 150-154: [compound = biocyc.get(id)] under [try]; the result
    is [Some compound] exactly when [in_biocyc] is set. *)
Definition lookup_biocyc (id : pyval) : M World (option Compound) :=
  try_except (call_biocyc_get id) (ret None).

(** Lines 157-161. *)
Definition pass1_name (entry : option ChemLink) (compound : option Compound)
  (name : pyval) : outcome pyval :=
  if is_none name then
    match entry, compound with
    | Some e, _ => Ret (PStr (link_name e))
    | None, Some c => compound_name c
    | None, None => Ret name
    end
  else Ret name.

(** Lines 165-166, the [elif] branch: [compound.inchi] is read for the
    test and once more for the assignment. *)
Definition pass1_inchi_biocyc (compound : option Compound) (inchi : pyval)
  : outcome pyval :=
  match compound with
  | Some c =>
      obind (compound_inchi c) (fun v =>
        if ne_empty v then compound_inchi c else Ret inchi)
  | None => Ret inchi
  end.

(** Lines 162-166. *)
Definition pass1_inchi (entry : option ChemLink) (compound : option Compound)
  (inchi : pyval) : outcome pyval :=
  if is_none inchi then
    match entry with
    | Some e =>
        if ne_empty (PStr (link_inchi e)) then Ret (PStr (link_inchi e))
        else pass1_inchi_biocyc compound inchi
    | None => pass1_inchi_biocyc compound inchi
    end
  else Ret inchi.

(** Lines 167-168. *)
Definition pass1_smiles (entry : option ChemLink) (smiles : pyval) : pyval :=
  if is_none smiles then
    match entry with
    | Some e => PStr (link_smiles e)
    | None => smiles
    end
  else smiles.

(** One PubChem attempt: [c = pcp.get_compounds(v, ns); x = c[0].attr]. *)
Definition pubchem_first (v : pyval) (ns : namespace)
  (attr : PubChemCompound -> outcome pyval) : M World pyval :=
  c <- call_get_compounds v ns ;;
  c0 <- lift (getitem c 0) ;;
  lift (attr c0).

(** The shape shared by lines 172-180, 183-191 and 194-202: a first
    attempt, on any exception a second one, on any exception the empty
    string. *)
Definition pubchem_fallback (v1 : pyval) (ns1 : namespace) (v2 : pyval)
  (ns2 : namespace) (attr : PubChemCompound -> outcome pyval) : M World pyval :=
  try_except (pubchem_first v1 ns1 attr)
    (try_except (pubchem_first v2 ns2 attr)
       (ret (PStr ""))).

(** Lines 171-180. *)
Definition pass2_name (name inchi smiles : pyval) : M World pyval :=
  if is_none name
  then pubchem_fallback inchi ByInchi smiles BySmiles iupac_name
  else ret name.

(** Lines 182-191. *)
Definition pass2_inchi (name inchi smiles : pyval) : M World pyval :=
  if is_none inchi
  then pubchem_fallback name ByName smiles BySmiles pc_inchi
  else ret inchi.

(** Lines 193-202. *)
Definition pass2_smiles (name inchi smiles : pyval) : M World pyval :=
  if is_none smiles
  then pubchem_fallback name ByName inchi ByInchi canonical_smiles
  else ret smiles.

Definition impute_chem (id name inchi smiles : pyval) : M World ChemValues :=
  let entry := lookup_links id in
  compound <- lookup_biocyc id ;;
  (* Pass 1: Use links and BioCyc *)
  name <- lift (pass1_name entry compound name) ;;
  inchi <- lift (pass1_inchi entry compound inchi) ;;
  let smiles := pass1_smiles entry smiles in
  (* Pass 2: Use PubChem *)
  name <- pass2_name name inchi smiles ;;
  inchi <- pass2_inchi name inchi smiles ;;
  smiles <- pass2_smiles name inchi smiles ;;
  ret {| chem_name := name; chem_inchi := inchi; chem_smiles := smiles |}.

End Resolver.

(** ** The Link Table Loader (lines 33-88)

    A file is the list of its lines as iteration over the file object
    yields them, each with its line terminator. *)

(** Lines 43-65, the body of the loop of [load_chem_links]. *)
Definition load_chem_links_line (chem_links : dict string ChemLink)
  (line : string) : outcome (dict string ChemLink) :=
  if PyStr.startswith line "#" then Ret chem_links
  else
    let entries := PyStr.split PyStr.TAB line in
    obind (getitem entries 0) (fun e0 =>
    obind (getitem entries 1) (fun e1 =>
    obind (getitem entries 2) (fun e2 =>
    obind (getitem entries 3) (fun e3 =>
      let id := PyStr.strip e0 in
      let inchi := PyStr.strip e1 in
      let smiles := PyStr.strip e2 in
      let name := normalize_name (PyStr.strip e3) in
      Ret (dict_set chem_links id
             {| link_name := name; link_inchi := inchi; link_smiles := smiles |}))))).

(** [for line in f: ...] with a body that may raise. *)
Fixpoint fold_lines {T : Type} (step : T -> string -> outcome T)
  (table : T) (lines : list string) : outcome T :=
  match lines with
  | [] => Ret table
  | line :: rest => obind (step table line) (fun t => fold_lines step t rest)
  end.

Definition load_chem_links (lines : list string) : outcome (dict string ChemLink) :=
  fold_lines load_chem_links_line [] lines.

(** Line 84: [[ec[3:].strip() for ec in entries[1:]]] *)
Definition ec_numbers (entries : list string) : list string :=
  map (fun ec => PyStr.strip (PyStr.slice_from 3 ec)) (tl entries).

(** Lines 78-85, the body of the loop of [load_rxn_links]. *)
Definition load_rxn_links_line (rxn_links : dict string (list string))
  (line : string) : outcome (dict string (list string)) :=
  if PyStr.startswith line "#" then Ret rxn_links
  else
    let entries := PyStr.split PyStr.TAB line in
    obind (getitem entries 1) (fun e1 =>
      if PyStr.isspace e1 then Ret rxn_links
      else
        obind (getitem entries 0) (fun e0 =>
          Ret (dict_set rxn_links (PyStr.strip e0) (ec_numbers entries)))).

Definition load_rxn_links (lines : list string) : outcome (dict string (list string)) :=
  fold_lines load_rxn_links_line [] lines.

(** ** The Record Parser for chemicals: [extract_chems] (lines 95-140) *)

(** The loop variables [id, name, inchi, smiles]. *)
Record ChemAcc : Type := {
  acc_id : pyval;
  acc_name : pyval;
  acc_inchi : pyval;
  acc_smiles : pyval
}.

Definition chem_acc_reset : ChemAcc :=
  {| acc_id := PNone; acc_name := PNone; acc_inchi := PNone; acc_smiles := PNone |}.

(** Lines 119-137: a line that is not a record terminator. *)
Definition chem_field_line (acc : ChemAcc) (line : string) : outcome ChemAcc :=
  let entries := PyStr.split " - " line in
  let entry_type := hd "" entries in
  if String.eqb entry_type "UNIQUE-ID" then
    obind (getitem entries 1) (fun e1 =>
      Ret {| acc_id := PStr (PyStr.strip e1); acc_name := acc_name acc;
             acc_inchi := acc_inchi acc; acc_smiles := acc_smiles acc |})
  else if String.eqb entry_type "COMMON-NAME" then
    obind (getitem entries 1) (fun e1 =>
      Ret {| acc_id := acc_id acc;
             acc_name := PStr (normalize_name (PyStr.strip e1));
             acc_inchi := acc_inchi acc; acc_smiles := acc_smiles acc |})
  else if String.eqb entry_type "NON-STANDARD-INCHI"
          || String.eqb entry_type "INCHI" then
    obind (getitem entries 1) (fun e1 =>
      Ret {| acc_id := acc_id acc; acc_name := acc_name acc;
             acc_inchi := PStr (PyStr.strip e1); acc_smiles := acc_smiles acc |})
  else if String.eqb entry_type "SMILES" then
    obind (getitem entries 1) (fun e1 =>
      Ret {| acc_id := acc_id acc; acc_name := acc_name acc;
             acc_inchi := acc_inchi acc; acc_smiles := PStr (PyStr.strip e1) |})
  else Ret acc.

Section ChemParser.

Context {World : Type}.
Variable services : Services World.
Variable chem_links : dict string ChemLink.

(** Lines 109-137: one turn of the loop on a non-empty line. *)
Definition extract_chems_line (chems : dict pyval ChemValues) (acc : ChemAcc)
  (line : string) : M World (dict pyval ChemValues * ChemAcc) :=
  if PyStr.startswith line "//" then
    values <- impute_chem services chem_links
                (acc_id acc) (acc_name acc) (acc_inchi acc) (acc_smiles acc) ;;
    ret (dict_set chems (acc_id acc) values, chem_acc_reset)
  else
    acc' <- lift (chem_field_line acc line) ;;
    ret (chems, acc').

(** Lines 105-137: [readline] returns the empty string at the end of
    the file, which ends the loop. *)
Fixpoint extract_chems_loop (lines : list string)
  (chems : dict pyval ChemValues) (acc : ChemAcc)
  : M World (dict pyval ChemValues) :=
  match lines with
  | [] => ret chems
  | line :: rest =>
      if String.eqb line "" then ret chems
      else
        st <- extract_chems_line chems acc line ;;
        extract_chems_loop rest (fst st) (snd st)
  end.

Definition extract_chems (lines : list string) : M World (dict pyval ChemValues) :=
  extract_chems_loop lines [] chem_acc_reset.

End ChemParser.

(** ** The Reaction Resolver and its parser (lines 210-274) *)

(** Lines 256-260 and 262-266. *)
Definition display_names (chems : dict pyval ChemValues) (ids : list string)
  : list pyval :=
  map (fun chem_id =>
         match dict_get chems (PStr chem_id) with
         | Some values => chem_name values
         | None => PStr chem_id
         end) ids.

Definition impute_rxn (chems : dict pyval ChemValues) (id : pyval)
  (left right : list string) (direction : option Z) : RxnValues :=
  {| reactant_names := display_names chems left;
     product_names := display_names chems right;
     reactant_ids := left;
     product_ids := right;
     direction := direction |}.

(** The loop variables [id, left, right, direction]. *)
Record RxnAcc : Type := {
  racc_id : pyval;
  racc_left : list string;
  racc_right : list string;
  racc_direction : option Z
}.

Definition rxn_acc_reset : RxnAcc :=
  {| racc_id := PNone; racc_left := []; racc_right := []; racc_direction := None |}.

(** Lines 241-249. *)
Definition direction_code (dir : string) : Z :=
  if String.eqb dir "REVERSIBLE" then 0%Z
  else if PyStr.endswith dir "LEFT-TO-RIGHT" then 1%Z
  else if PyStr.endswith dir "RIGHT-TO-LEFT" then 2%Z
  else (-1)%Z.

(** Lines 232-249: a line that is not a record terminator. *)
Definition rxn_field_line (acc : RxnAcc) (line : string) : outcome RxnAcc :=
  let entries := PyStr.split " - " line in
  let entry_type := PyStr.strip (hd "" entries) in
  if String.eqb entry_type "UNIQUE-ID" then
    obind (getitem entries 1) (fun e1 =>
      Ret {| racc_id := PStr (PyStr.strip e1); racc_left := racc_left acc;
             racc_right := racc_right acc; racc_direction := racc_direction acc |})
  else if String.eqb entry_type "LEFT" then
    obind (getitem entries 1) (fun e1 =>
      Ret {| racc_id := racc_id acc;
             racc_left := (racc_left acc ++ [PyStr.strip e1])%list;
             racc_right := racc_right acc; racc_direction := racc_direction acc |})
  else if String.eqb entry_type "RIGHT" then
    obind (getitem entries 1) (fun e1 =>
      Ret {| racc_id := racc_id acc; racc_left := racc_left acc;
             racc_right := (racc_right acc ++ [PyStr.strip e1])%list;
             racc_direction := racc_direction acc |})
  else if String.eqb entry_type "REACTION-DIRECTION" then
    obind (getitem entries 1) (fun e1 =>
      Ret {| racc_id := racc_id acc; racc_left := racc_left acc;
             racc_right := racc_right acc;
             racc_direction := Some (direction_code (PyStr.strip e1)) |})
  else Ret acc.

(** Lines 222-249: one turn of the loop on a non-empty line. *)
Definition extract_rxns_line (chems : dict pyval ChemValues)
  (rxns : dict pyval RxnValues) (acc : RxnAcc) (line : string)
  : outcome (dict pyval RxnValues * RxnAcc) :=
  if PyStr.startswith line "//" then
    Ret (dict_set rxns (racc_id acc)
           (impute_rxn chems (racc_id acc) (racc_left acc) (racc_right acc)
              (racc_direction acc)),
         rxn_acc_reset)
  else
    obind (rxn_field_line acc line) (fun acc' => Ret (rxns, acc')).

Fixpoint extract_rxns_loop (chems : dict pyval ChemValues) (lines : list string)
  (rxns : dict pyval RxnValues) (acc : RxnAcc) : outcome (dict pyval RxnValues) :=
  match lines with
  | [] => Ret rxns
  | line :: rest =>
      if String.eqb line "" then Ret rxns
      else
        obind (extract_rxns_line chems rxns acc line) (fun st =>
          extract_rxns_loop chems rest (fst st) (snd st))
  end.

Definition extract_rxns (chems : dict pyval ChemValues) (lines : list string)
  : outcome (dict pyval RxnValues) :=
  extract_rxns_loop chems lines [] rxn_acc_reset.

(** ** The Output Writer for chemicals (lines 281-295) *)

(** [a + b]: concatenation of two strings, [TypeError] otherwise. *)
Definition py_add (a b : pyval) : outcome pyval :=
  match a, b with
  | PStr x, PStr y => Ret (PStr (x ++ y))
  | _, _ => Raise
  end.

(** [line += '\t' + v] *)
Definition add_column (line v : pyval) : outcome pyval :=
  obind (py_add (PStr PyStr.TAB) v) (fun col => py_add line col).

(** [if not v is None: line += '\t' + v] *)
Definition add_column_if_present (line v : pyval) : outcome pyval :=
  if is_none v then Ret line else add_column line v.

Definition chems_header : string :=
  "id" ++ PyStr.TAB ++ "name" ++ PyStr.TAB ++ "inchi" ++ PyStr.TAB ++ "smiles"
  ++ PyStr.NL.

(** Lines 286-293: the text of one row. *)
Definition chem_row (id : pyval) (values : ChemValues) : outcome pyval :=
  obind (add_column id (chem_name values)) (fun line =>
  obind (add_column_if_present line (chem_inchi values)) (fun line =>
  obind (add_column_if_present line (chem_smiles values)) (fun line =>
  py_add line (PStr PyStr.NL)))).

(** [chems_file.write(line)] appends to the text written so far. *)
Definition file_write (file : list string) (line : pyval) : outcome (list string) :=
  match line with
  | PStr s => Ret (file ++ [s])%list
  | PNone => Raise
  end.

(** Lines 285-294: the rows, for the keys [ids] still to be visited.
    The result is the text written and how the loop ended. *)
Fixpoint write_chem_rows (chems : dict pyval ChemValues) (ids : list pyval)
  (file : list string) : list string * outcome unit :=
  match ids with
  | [] => (file, Ret tt)
  | id :: rest =>
      match dict_get chems id with
      | Some values =>
          match obind (chem_row id values) (file_write file) with
          | Ret file' => write_chem_rows chems rest file'
          | Raise => (file, Raise)
          end
      | None => (file, Raise)
      end
  end.

Definition write_chems (chems : dict pyval ChemValues) : list string * outcome unit :=
  write_chem_rows chems (dict_keys chems) [chems_header].

(** ** The Output Writer for reactions (lines 297-313) *)

(** The items of a list that [join] accepts: every one a string. *)
Fixpoint strings_of (items : list pyval) : outcome (list string) :=
  match items with
  | [] => Ret []
  | PStr s :: rest => obind (strings_of rest) (fun l => Ret (s :: l))
  | PNone :: _ => Raise
  end.

(** [sep.join(items)], [TypeError] when an item is not a string. *)
Definition py_join (sep : string) (items : list pyval) : outcome string :=
  obind (strings_of items) (fun l => Ret (PyStr.join sep l)).

(** Lines 304-309: the token between the two sides. *)
Definition arrow (direction : option Z) : string :=
  match direction with
  | Some d =>
      if Z.eqb d 0 then " <=> "
      else if Z.eqb d 1 then " -> "
      else " <- "
  | None => " <- "
  end.

Definition rxns_header : string :=
  "reaction" ++ PyStr.TAB ++ "reactants" ++ PyStr.TAB ++ "products" ++ PyStr.NL.

(** Lines 303-313: the text of one row. *)
Definition rxn_row (values : RxnValues) : outcome string :=
  obind (py_join " + " (reactant_names values)) (fun line =>
  let line := line ++ arrow (direction values) in
  obind (py_join " + " (product_names values)) (fun products =>
  let line := line ++ products in
  let line := line ++ (PyStr.TAB ++ PyStr.join " " (reactant_ids values)) in
  let line := line ++ (PyStr.TAB ++ PyStr.join " " (product_ids values)) in
  Ret (line ++ PyStr.NL))).

(** Lines 301-314: the rows, for the keys [ids] still to be visited. *)
Fixpoint write_rxn_rows (rxns : dict pyval RxnValues) (ids : list pyval)
  (file : list string) : list string * outcome unit :=
  match ids with
  | [] => (file, Ret tt)
  | id :: rest =>
      match dict_get rxns id with
      | Some values =>
          match rxn_row values with
          | Ret line => write_rxn_rows rxns rest (file ++ [line])%list
          | Raise => (file, Raise)
          end
      | None => (file, Raise)
      end
  end.

Definition write_rxns (rxns : dict pyval RxnValues) : list string * outcome unit :=
  write_rxn_rows rxns (dict_keys rxns) [rxns_header].

(** ** [write_data], [extract_data] and the constructor *)

(** The text of the two output files; [None] for a file that was not
    opened. *)
Record Outputs : Type := {
  chemicals_txt : option (list string);
  reactions_txt : option (list string)
}.

Definition no_outputs : Outputs :=
  {| chemicals_txt := None; reactions_txt := None |}.

(** Lines 281-315: [reactions.txt] is opened after the last row of
    [chemicals.txt] is written. *)
Definition write_data (chems : dict pyval ChemValues)
  (rxns : dict pyval RxnValues) : Outputs * outcome unit :=
  match write_chems chems with
  | (cfile, Ret _) =>
      let (rfile, r) := write_rxns rxns in
      ({| chemicals_txt := Some cfile; reactions_txt := Some rfile |}, r)
  | (cfile, Raise) =>
      ({| chemicals_txt := Some cfile; reactions_txt := None |}, Raise)
  end.

(** Lines 28-31: the two link tables, loaded in this order. *)
Definition init (chem_links_lines rxn_links_lines : list string)
  : outcome (dict string ChemLink * dict string (list string)) :=
  obind (load_chem_links chem_links_lines) (fun chem_links =>
  obind (load_rxn_links rxn_links_lines) (fun rxn_links =>
  Ret (chem_links, rxn_links))).

Section Extractor.

Context {World : Type}.
Variable services : Services World.

(** Lines 90-93.  The result is what was written and how the call ended,
    beside the state of the world. *)
Definition extract_data (chem_links : dict string ChemLink)
  (compounds reactions : list string) (st : World * list query)
  : (Outputs * outcome unit) * (World * list query) :=
  match extract_chems services chem_links compounds st with
  | (Ret chems, st') =>
      match extract_rxns chems reactions with
      | Ret rxns => (write_data chems rxns, st')
      | Raise => ((no_outputs, Raise), st')
      end
  | (Raise, st') => ((no_outputs, Raise), st')
  end.

(** Lines 336-337: [BioCycData(org).extract_data()] on the four input
    files of the organism. *)
Definition run (chem_links_lines rxn_links_lines compounds reactions : list string)
  (st : World * list query)
  : (Outputs * outcome unit) * (World * list query) :=
  match init chem_links_lines rxn_links_lines with
  | Ret tables => extract_data (fst tables) compounds reactions st
  | Raise => ((no_outputs, Raise), st)
  end.

End Extractor.

(** ** Notions used to state the properties *)

(** All three fields of a resolved record are strings. *)
Definition all_fields_set (values : ChemValues) : Prop :=
  chem_name values <> PNone /\ chem_inchi values <> PNone
  /\ chem_smiles values <> PNone.

(** No first candidate of a structure search has an attribute that
    reads as [None]. *)
Definition candidates_filled {World : Type} (services : Services World) : Prop :=
  forall v ns w cs w' c,
    pcp_get_compounds services v ns w = (Ret cs, w') ->
    getitem cs 0 = Ret c ->
    iupac_name c <> Ret PNone /\ pc_inchi c <> Ret PNone
    /\ canonical_smiles c <> Ret PNone.

(** Reading [name] or [inchi] of an object the database returns does
    not raise. *)
Definition attributes_readable {World : Type} (services : Services World) : Prop :=
  forall id w c w',
    biocyc_get services id w = (Ret (Some c), w') ->
    compound_name c <> Raise /\ compound_inchi c <> Raise.

(** What a source offers for a field: nothing, or a value. *)
Definition link_source (entry : option ChemLink) (field : ChemLink -> string)
  : option pyval :=
  option_map (fun e => PStr (field e)) entry.

Definition biocyc_source (compound : option Compound) (v : pyval) : option pyval :=
  option_map (fun _ => v) compound.

(** The first source, in order, that has the field at all. *)
Fixpoint first_present (sources : list (option pyval)) : pyval :=
  match sources with
  | [] => PNone
  | Some v :: _ => v
  | None :: rest => first_present rest
  end.

(** The first source, in order, that has a non-empty value for the field. *)
Fixpoint first_nonempty (sources : list (option pyval)) : pyval :=
  match sources with
  | [] => PNone
  | Some v :: rest => if ne_empty v then v else first_nonempty rest
  | None :: rest => first_nonempty rest
  end.

(** [c] occurs in [s]. *)
Fixpoint occurs (c : ascii) (s : string) : bool :=
  match s with
  | EmptyString => false
  | String d s' => Ascii.eqb d c || occurs c s'
  end.

(** The id carried by a [UNIQUE-ID] line of [compounds.dat]. *)
Definition unique_id_of (line : string) : option string :=
  match PyStr.split " - " line with
  | entry_type :: value :: _ =>
      if String.eqb entry_type "UNIQUE-ID" then Some (PyStr.strip value) else None
  | _ => None
  end.


(** The ids of the records closed by a terminator, in file order: the
    last [UNIQUE-ID] of each, [None] for a record without one.  [cur] is
    the id of the record being read. *)
Fixpoint record_ids (lines : list string) (cur : pyval) : list pyval :=
  match lines with
  | [] => []
  | line :: rest =>
      if String.eqb line "" then []
      else if PyStr.startswith line "//" then cur :: record_ids rest PNone
      else match unique_id_of line with
           | Some i => record_ids rest (PStr i)
           | None => record_ids rest cur
           end
  end.


(** The first column of a row: its text before the first tab. *)
Fixpoint first_column (row : string) : string :=
  match row with
  | EmptyString => EmptyString
  | String c rest =>
      if Ascii.eqb c "009"%char then EmptyString
      else String c (first_column rest)
  end.

(** The first columns of the rows of a table, the header left out. *)
Definition row_keys (file : list string) : list string :=
  map first_column (tl file).

(** Lines of [reaction-links.dat]: those that are not comments, and
    among them those whose second column is whitespace and nothing else. *)
Definition is_data_line (line : string) : bool :=
  negb (PyStr.startswith line "#").

Definition has_space_codes (line : string) : bool :=
  is_data_line line &&
  match nth_error (PyStr.split PyStr.TAB line) 1 with
  | Some codes => PyStr.isspace codes
  | None => false
  end.

Definition rxn_entry_type (line : string) : string :=
  PyStr.strip (hd "" (PyStr.split " - " line)).


(** The value carried by an [INCHI] or [NON-STANDARD-INCHI] line of
    [compounds.dat]. *)
Definition inchi_value (line : string) : option string :=
  match PyStr.split " - " line with
  | entry_type :: value :: _ =>
      if String.eqb entry_type "NON-STANDARD-INCHI" || String.eqb entry_type "INCHI"
      then Some (PyStr.strip value) else None
  | _ => None
  end.

(** The id that a line of a reaction record carries for the key [key]
    ([LEFT] or [RIGHT]), and the ids of all lines, in their order. *)
Definition side_id (key line : string) : list string :=
  if String.eqb (rxn_entry_type line) key then
    match nth_error (PyStr.split " - " line) 1 with
    | Some value => [PyStr.strip value]
    | None => []
    end
  else [].

Definition side_ids (key : string) (body : list string) : list string :=
  flat_map (side_id key) body.

(** The lines of a record before its terminator. *)
Definition record_body (body : list string) : Prop :=
  Forall (fun line => line <> "" /\ PyStr.startswith line "//" = false) body.

(** A line as [readline] returns it before the last one: ended by a
    newline. *)
Definition newline_ended (line : string) : Prop :=
  exists text, line = text ++ PyStr.NL.

(** The queries of a log that went to the database. *)
Definition biocyc_queries (log : list query) : list query :=
  filter (fun q => negb (is_pubchem q)) log.

(** ** Sample services, tables and files *)

(** Both services are down: every call raises. *)
Definition services_down : Services unit :=
  {| biocyc_get := fun _ w => (Raise, w);
     pcp_get_compounds := fun _ _ w => (Raise, w) |}.

(** PubChem answers every search with one compound that has no IUPAC
    name, as [pubchempy] reports a missing property: [None]. *)
Definition unnamed_candidate : PubChemCompound :=
  {| iupac_name := Ret PNone;
     pc_inchi := Ret (PStr "InChI=1S/H2O/h1H2");
     canonical_smiles := Ret (PStr "O") |}.

Definition services_unnamed : Services unit :=
  {| biocyc_get := fun _ w => (Raise, w);
     pcp_get_compounds := fun _ _ w => (Ret [unnamed_candidate], w) |}.

(** BioCyc returns an object on which reading [inchi] raises. *)
Definition services_no_inchi_attr : Services unit :=
  {| biocyc_get := fun _ w =>
       (Ret (Some {| compound_name := Ret (PStr "water");
                     compound_inchi := Raise |}), w);
     pcp_get_compounds := fun _ _ w => (Raise, w) |}.

(** BioCyc knows every id as "bar"; PubChem finds water for any search. *)
Definition water : PubChemCompound :=
  {| iupac_name := Ret (PStr "oxidane");
     pc_inchi := Ret (PStr "InChI=1S/H2O/h1H2");
     canonical_smiles := Ret (PStr "O") |}.

Definition services_up : Services unit :=
  {| biocyc_get := fun _ w =>
       (Ret (Some {| compound_name := Ret (PStr "bar");
                     compound_inchi := Ret (PStr "") |}), w);
     pcp_get_compounds := fun _ _ w => (Ret [water], w) |}.

Definition links_foo : dict string ChemLink :=
  [("CPD-1", {| link_name := "foo"; link_inchi := ""; link_smiles := "O" |})].

Definition links_full : dict string ChemLink :=
  [("CPD-1", {| link_name := "foo"; link_inchi := "InChI=1S/H2O/h1H2";
               link_smiles := "O" |})].

Definition entry_unnamed : ChemLink :=
  {| link_name := ""; link_inchi := ""; link_smiles := "" |}.

Definition compound_bar : Compound :=
  {| compound_name := Ret (PStr "bar"); compound_inchi := Ret (PStr "I") |}.

Definition line (text : string) : string := text ++ PyStr.NL.

Definition compounds_dangling : list string := [line "UNIQUE-ID - CPD-1"].

(** Two records whose ids agree up to a tab inside the second. *)
Definition compounds_tab : list string :=
  [line "UNIQUE-ID - A"; line "//";
   line ("UNIQUE-ID - A" ++ PyStr.TAB ++ "B"); line "//"].

Definition compounds_unnamed : list string :=
  [line "UNIQUE-ID - CPD-1"; line "//"].

Definition compounds_two : list string :=
  [line "UNIQUE-ID - CPD-1"; line "COMMON-NAME - a <i>salt</i>"; line "//";
   line "UNIQUE-ID - CPD-2"; line "SMILES - O"; line "//";
   line "UNIQUE-ID - CPD-3"].



Definition rxn_links_lines : list string :=
  [line "# comment";
   line ("RXN-1" ++ PyStr.TAB ++ "EC-1.1.1.1");
   line ("RXN-2" ++ PyStr.TAB);
   line ("RXN-3" ++ PyStr.TAB ++ "EC-2.7.1.1" ++ PyStr.TAB ++ "EC-2.7.1.2")].

(** What [services_up] and [links_foo] make of [compounds_two]. *)
Definition chems_two : dict pyval ChemValues :=
  [(PStr "CPD-1", {| chem_name := PStr "salt";
                     chem_inchi := PStr "InChI=1S/H2O/h1H2";
                     chem_smiles := PStr "O" |});
   (PStr "CPD-2", {| chem_name := PStr "bar";
                     chem_inchi := PStr "InChI=1S/H2O/h1H2";
                     chem_smiles := PStr "O" |})].



Definition chems_absent_name : dict pyval ChemValues :=
  [(PStr "CPD-1", {| chem_name := PNone;
                     chem_inchi := PStr "InChI=1S/H2O/h1H2";
                     chem_smiles := PStr "O" |})].

(** A reaction with two reactants, one of them unknown to the table. *)
Definition reactions_dat : list string :=
  [line "UNIQUE-ID - RXN-1"; line "LEFT - CPD-1"; line "LEFT - CPD-9";
   line "RIGHT - CPD-2"; line "REACTION-DIRECTION - PHYSIOL-LEFT-TO-RIGHT";
   line "//"].

Definition reaction_body : list string :=
  [line "UNIQUE-ID - RXN-1"; line "LEFT - CPD-1"; line "LEFT - CPD-9";
   line "RIGHT - CPD-2"; line "REACTION-DIRECTION - PHYSIOL-LEFT-TO-RIGHT"].

Definition racc_rxn1 : RxnAcc :=
  {| racc_id := PStr "RXN-1"; racc_left := ["CPD-1"; "CPD-9"];
     racc_right := ["CPD-2"]; racc_direction := Some 1%Z |}.

Definition compound_links_dat : list string :=
  [line "# id, inchi, smiles, name";
   line ("CPD-1" ++ PyStr.TAB ++ "InChI=1S/H2O/h1H2" ++ PyStr.TAB ++ "O"
         ++ PyStr.TAB ++ "a <i>water</i>[aq]")].

Definition link_water : ChemLink :=
  {| link_name := "wateraq"; link_inchi := "InChI=1S/H2O/h1H2";
     link_smiles := "O" |}.

Definition compounds_anonymous : list string :=
  [line "COMMON-NAME - water"; line "//"].

Definition acc_two_inchis : ChemAcc :=
  {| acc_id := PNone; acc_name := PNone; acc_inchi := PStr "B";
     acc_smiles := PStr "O" |}.

(** * Properties *)

(** ** The string operations on sample inputs *)

Example split_fields :
  PyStr.split " - " "UNIQUE-ID - A - B" = ["UNIQUE-ID"; "A"; "B"].
Proof. reflexivity. Qed.

Example split_trailing_tab :
  PyStr.split PyStr.TAB ("RXN-1" ++ PyStr.TAB) = ["RXN-1"; ""].
Proof. reflexivity. Qed.

Example split_no_separator : PyStr.split " - " "//" = ["//"].
Proof. reflexivity. Qed.

Example strip_both_ends : PyStr.strip ("  a b " ++ PyStr.NL) = "a b".
Proof. reflexivity. Qed.

Example isspace_empty : PyStr.isspace "" = false.
Proof. reflexivity. Qed.

Example isspace_newline : PyStr.isspace PyStr.NL = true.
Proof. reflexivity. Qed.

Example sub_tags_nested : PyStr.sub_tags "x<<i>>y<b" = "x<>y<b".
Proof. reflexivity. Qed.

Example endswith_direction :
  PyStr.endswith "PHYSIOL-LEFT-TO-RIGHT" "LEFT-TO-RIGHT" = true.
Proof. reflexivity. Qed.

(** ** Name normalization *)

Lemma occurs_remove_char_same (c : ascii) (s : string) :
  occurs c (PyStr.remove_char c s) = false.
Proof.
  induction s as [|d s IH]; simpl; [reflexivity|].
  destruct (Ascii.eqb d c) eqn:E; simpl; [assumption|].
  now rewrite E.
Qed.

Lemma occurs_remove_char_other (c d : ascii) (s : string) :
  occurs c s = false -> occurs c (PyStr.remove_char d s) = false.
Proof.
  induction s as [|e s IH]; simpl; [trivial|].
  intro H. apply orb_false_iff in H as [He Hs].
  destruct (Ascii.eqb e d); simpl; [auto|].
  rewrite He. simpl. auto.
Qed.

Lemma remove_char_absent (c : ascii) (s : string) :
  occurs c s = false -> PyStr.remove_char c s = s.
Proof.
  induction s as [|d s IH]; simpl; [trivial|].
  intro H. apply orb_false_iff in H as [Hd Hs].
  rewrite Hd. f_equal. auto.
Qed.

Lemma occurs_sub_tags_go (c : ascii) (s : string) :
  occurs c s = false -> forall k, occurs c (PyStr.sub_tags_go k s) = false.
Proof.
  induction s as [|d s IH]; simpl; [trivial|].
  intros H k. apply orb_false_iff in H as [Hd Hs].
  destruct k as [|k]; [|auto].
  destruct (PyStr.is_lt d).
  - destruct (PyStr.tag_len s); simpl; [auto|].
    rewrite Hd. simpl. auto.
  - simpl. rewrite Hd. simpl. auto.
Qed.

Lemma occurs_slice_from (c : ascii) (n : nat) :
  forall s, occurs c s = false -> occurs c (PyStr.slice_from n s) = false.
Proof.
  induction n as [|n IH]; intros [|d s]; simpl; trivial.
  intro H. apply orb_false_iff in H as [_ Hs]. auto.
Qed.

Lemma occurs_drop_article (c : ascii) (s : string) :
  occurs c s = false -> occurs c (drop_article s) = false.
Proof.
  intro H. unfold drop_article.
  destruct (PyStr.startswith s "a "); [now apply occurs_slice_from|].
  destruct (PyStr.startswith s "an "); [now apply occurs_slice_from|assumption].
Qed.

(** The normalized name contains none of the excluded characters. *)
Lemma normalize_name_excludes (c : ascii) (s : string) :
  In c exclude_chars -> occurs c (normalize_name s) = false.
Proof.
  intro Hc. unfold normalize_name, PyStr.sub_tags.
  apply occurs_drop_article, occurs_sub_tags_go.
  unfold remove_chars, exclude_chars in *. simpl in *.
  destruct Hc as [<-|[<-|[<-|[<-|[]]]]].
  - do 3 apply occurs_remove_char_other. apply occurs_remove_char_same.
  - do 2 apply occurs_remove_char_other. apply occurs_remove_char_same.
  - apply occurs_remove_char_other. apply occurs_remove_char_same.
  - apply occurs_remove_char_same.
Qed.

(** Stripping the excluded characters a second time changes nothing. *)
Lemma remove_chars_normalized (s : string) :
  remove_chars exclude_chars (normalize_name s) = normalize_name s.
Proof.
  unfold remove_chars, exclude_chars. simpl.
  rewrite (remove_char_absent "&") by (apply normalize_name_excludes; simpl; auto).
  rewrite (remove_char_absent ";") by (apply normalize_name_excludes; simpl; auto).
  rewrite (remove_char_absent "[") by (apply normalize_name_excludes; simpl; auto).
  apply remove_char_absent, normalize_name_excludes; simpl; auto.
Qed.

Lemma length_sub_tags_go (s : string) :
  forall k, String.length (PyStr.sub_tags_go k s) + Nat.min k (String.length s)
            <= String.length s.
Proof.
  induction s as [|c s IH]; simpl; intro k; [lia|].
  destruct k as [|k].
  - destruct (PyStr.is_lt c).
    + destruct (PyStr.tag_len s) as [j|] eqn:E; simpl.
      * specialize (IH j). lia.
      * specialize (IH 0). lia.
    + simpl. specialize (IH 0). lia.
  - specialize (IH k). lia.
Qed.

(** Deleting tags either changes nothing or shortens the string. *)
Lemma sub_tags_fixed_or_shorter (s : string) :
  PyStr.sub_tags s = s \/ String.length (PyStr.sub_tags s) < String.length s.
Proof.
  unfold PyStr.sub_tags.
  induction s as [|c s IH]; simpl; [now left|].
  assert (Hstep : String c (PyStr.sub_tags_go 0 s) = String c s
                  \/ S (String.length (PyStr.sub_tags_go 0 s)) < S (String.length s)).
  { destruct IH as [->|IH]; [now left|right; lia]. }
  destruct (PyStr.is_lt c); [|exact Hstep].
  destruct (PyStr.tag_len s) as [j|] eqn:E; [|exact Hstep].
  right. pose proof (length_sub_tags_go s j). lia.
Qed.

Lemma length_slice_from (n : nat) :
  forall s, String.length (PyStr.slice_from n s) = String.length s - n.
Proof.
  induction n as [|n IH]; intros [|c s]; simpl; auto.
Qed.

Lemma length_drop_article (s : string) :
  String.length (drop_article s) <= String.length s.
Proof.
  unfold drop_article.
  destruct (PyStr.startswith s "a "); [rewrite length_slice_from; lia|].
  destruct (PyStr.startswith s "an "); [rewrite length_slice_from; lia|lia].
Qed.

(** C4, as the code has it: normalizing a second time changes nothing
    exactly when the normalized name has no tag left and no leading
    article; the removal of the four characters is always stable. *)
Theorem normalize_name_idempotent_iff (s : string) :
  normalize_name (normalize_name s) = normalize_name s
  <-> PyStr.sub_tags (normalize_name s) = normalize_name s
      /\ drop_article (normalize_name s) = normalize_name s.
Proof.
  unfold normalize_name at 1. rewrite remove_chars_normalized.
  set (t := normalize_name s). split.
  - intro H.
    destruct (sub_tags_fixed_or_shorter t) as [Ht|Ht].
    + rewrite Ht in H. now split.
    + exfalso. pose proof (length_drop_article (PyStr.sub_tags t)) as Hd.
      rewrite H in Hd. lia.
  - intros [Ht Hd]. now rewrite Ht.
Qed.

(** C4, refuted as stated: the name left after dropping one article may
    start with another article, which a second pass drops. *)
Lemma normalize_name_not_idempotent :
  normalize_name "a an apple" = "an apple"
  /\ normalize_name (normalize_name "a an apple") = "apple"
  /\ normalize_name (normalize_name "a an apple") <> normalize_name "a an apple".
Proof.
  repeat split. discriminate.
Qed.

(** C5, as the code has it: the excluded characters are deleted, not
    replaced by a space. *)
Theorem normalize_name_example :
  normalize_name "a <x>broken[&];thing" = "brokenthing".
Proof.
  reflexivity.
Qed.

(** C5, refuted as stated: the result is not "broken thing". *)
Lemma normalize_name_example_no_space :
  normalize_name "a <x>broken[&];thing" <> "broken thing".
Proof.
  discriminate.
Qed.


(** ** The Imputation Resolver *)

Section ResolverProperties.

Context {World : Type}.
Variable services : Services World.
Variable chem_links : dict string ChemLink.

Lemma bind_ret_inv {A B : Type} (m : M World A) (k : A -> M World B) st b st' :
  bind m k st = (Ret b, st') ->
  exists a st1, m st = (Ret a, st1) /\ k a st1 = (Ret b, st').
Proof.
  unfold bind. destruct (m st) as [[a|] st1]; [|discriminate].
  intro H. now exists a, st1.
Qed.

Lemma lift_ret_inv {A : Type} (o : outcome A) (st st' : World * list query) a :
  lift o st = (Ret a, st') -> o = Ret a /\ st' = st.
Proof.
  unfold lift. intro H. injection H as -> ->. now split.
Qed.

(** One PubChem attempt logs exactly its query, whatever the answer. *)
Lemma pubchem_first_run v ns attr w log :
  exists o w',
    pubchem_first services v ns attr (w, log)
    = (o, (w', (log ++ [QPubChem v ns])%list))
    /\ (forall x, o = Ret x ->
        exists w0 cs c, pcp_get_compounds services v ns w0 = (Ret cs, w')
                        /\ getitem cs 0 = Ret c /\ attr c = Ret x).
Proof.
  unfold pubchem_first, bind, call_get_compounds, lift. simpl.
  destruct (pcp_get_compounds services v ns w) as [[cs|] w'] eqn:E.
  - destruct (getitem cs 0) as [c|] eqn:G.
    + exists (attr c), w'. split; [reflexivity|].
      intros x Hx. now exists w, cs, c.
    + exists Raise, w'. split; [reflexivity|discriminate].
  - exists Raise, w'. split; [reflexivity|discriminate].
Qed.

(** The fallback always returns; it logs its first query, and the second
    one when the first attempt raised; its value is the attribute of a
    first candidate, or the empty string. *)
Lemma pubchem_fallback_run v1 ns1 v2 ns2 attr w log :
  exists x w' extra,
    pubchem_fallback services v1 ns1 v2 ns2 attr (w, log)
    = (Ret x, (w', (log ++ extra)%list))
    /\ (extra = [QPubChem v1 ns1] \/ extra = [QPubChem v1 ns1; QPubChem v2 ns2])
    /\ (x = PStr ""
        \/ exists v ns w0 w1 cs c,
             pcp_get_compounds services v ns w0 = (Ret cs, w1)
             /\ getitem cs 0 = Ret c /\ attr c = Ret x).
Proof.
  unfold pubchem_fallback, try_except.
  destruct (pubchem_first_run v1 ns1 attr w log) as (o1 & w1 & E1 & H1).
  rewrite E1. destruct o1 as [x|].
  - exists x, w1, [QPubChem v1 ns1]. repeat split; auto.
    right. destruct (H1 x eq_refl) as (w0 & cs & c & ?). now exists v1, ns1, w0, w1, cs, c.
  - destruct (pubchem_first_run v2 ns2 attr w1 (log ++ [QPubChem v1 ns1])%list)
      as (o2 & w2 & E2 & H2).
    rewrite E2. rewrite <- app_assoc. simpl.
    destruct o2 as [x|].
    + exists x, w2, [QPubChem v1 ns1; QPubChem v2 ns2]. repeat split; auto.
      right. destruct (H2 x eq_refl) as (w0 & cs & c & ?). now exists v2, ns2, w0, w2, cs, c.
    + exists (PStr ""), w2, [QPubChem v1 ns1; QPubChem v2 ns2]. repeat split; auto.
Qed.

(** The database lookup always returns and logs its query; an object it
    finds is one the service returned. *)
Lemma lookup_biocyc_run id w log :
  exists compound w',
    lookup_biocyc services id (w, log)
    = (Ret compound, (w', (log ++ [QBiocyc id])%list))
    /\ (forall c, compound = Some c ->
        biocyc_get services id w = (Ret (Some c), w')).
Proof.
  unfold lookup_biocyc, try_except, call_biocyc_get, ret. simpl.
  destruct (biocyc_get services id w) as [[compound|] w'] eqn:E.
  - exists compound, w'. split; [reflexivity|]. now intros c ->.
  - exists None, w'. split; [reflexivity|discriminate].
Qed.

(** A field that pass 2 finds set is left alone, without any query. *)
Lemma pass2_name_set name inchi smiles st :
  is_none name = false ->
  pass2_name services name inchi smiles st = (Ret name, st).
Proof. unfold pass2_name. now intros ->. Qed.

Lemma pass2_inchi_set name inchi smiles st :
  is_none inchi = false ->
  pass2_inchi services name inchi smiles st = (Ret inchi, st).
Proof. unfold pass2_inchi. now intros ->. Qed.

Lemma pass2_smiles_set name inchi smiles st :
  is_none smiles = false ->
  pass2_smiles services name inchi smiles st = (Ret smiles, st).
Proof. unfold pass2_smiles. now intros ->. Qed.

Lemma is_none_false (v : pyval) : is_none v = false <-> v <> PNone.
Proof. destruct v; simpl; split; congruence. Qed.

(** What pass 2 leaves in a field is a string unless a first candidate's
    attribute read as [None]. *)
Lemma pubchem_fallback_filled v1 ns1 v2 ns2 attr st x st' :
  (forall v ns w cs w' c,
      pcp_get_compounds services v ns w = (Ret cs, w') ->
      getitem cs 0 = Ret c -> attr c <> Ret PNone) ->
  pubchem_fallback services v1 ns1 v2 ns2 attr st = (Ret x, st') ->
  x <> PNone.
Proof.
  intros Hattr H. destruct st as [w log].
  destruct (pubchem_fallback_run v1 ns1 v2 ns2 attr w log)
    as (x' & w' & extra & E & _ & Hx).
  rewrite E in H. injection H as <- _.
  destruct Hx as [->|(v & ns & w0 & w1 & cs & c & Hq & Hc & Ha)]; [discriminate|].
  intros ->. exact (Hattr _ _ _ _ _ _ Hq Hc Ha).
Qed.

(** C1, as the code has it: when no first candidate of a structure
    search has an attribute reading as [None], every record that
    [impute_chem] returns has a string, possibly empty, in all three
    fields, whatever else the two services do. *)
Theorem impute_chem_fields_set (id name inchi smiles : pyval) st values st' :
  candidates_filled services ->
  impute_chem services chem_links id name inchi smiles st = (Ret values, st') ->
  all_fields_set values.
Proof.
  intros Hfilled H. unfold impute_chem in H.
  apply bind_ret_inv in H as (compound & s1 & _ & H).
  apply bind_ret_inv in H as (name1 & s2 & _ & H).
  apply bind_ret_inv in H as (inchi1 & s3 & _ & H).
  apply bind_ret_inv in H as (name2 & s4 & Hn & H).
  apply bind_ret_inv in H as (inchi2 & s5 & Hi & H).
  apply bind_ret_inv in H as (smiles2 & s6 & Hs & H).
  injection H as <- _. unfold all_fields_set. simpl.
  repeat split.
  - unfold pass2_name in Hn. destruct (is_none name1) eqn:E.
    + apply pubchem_fallback_filled in Hn; [assumption|].
      intros. eapply Hfilled; eassumption.
    + injection Hn as <- _. now apply is_none_false.
  - unfold pass2_inchi in Hi. destruct (is_none inchi1) eqn:E.
    + apply pubchem_fallback_filled in Hi; [assumption|].
      intros. eapply Hfilled; eassumption.
    + injection Hi as <- _. now apply is_none_false.
  - unfold pass2_smiles in Hs.
    destruct (is_none (pass1_smiles (lookup_links chem_links id) smiles)) eqn:E.
    + apply pubchem_fallback_filled in Hs; [assumption|].
      intros. eapply Hfilled; eassumption.
    + injection Hs as <- _. now apply is_none_false.
Qed.

Lemma bind_run {A B : Type} (m : M World A) (k : A -> M World B) st a st1 :
  m st = (Ret a, st1) -> bind m k st = k a st1.
Proof. unfold bind. now intros ->. Qed.

Lemma pass1_name_returns entry compound name :
  (forall c, compound = Some c -> compound_name c <> Raise) ->
  exists name1, pass1_name entry compound name = Ret name1.
Proof.
  intro H. unfold pass1_name.
  destruct (is_none name); [|eauto].
  destruct entry as [e|]; [eauto|].
  destruct compound as [c|]; [|eauto].
  specialize (H c eq_refl). destruct (compound_name c); [eauto|congruence].
Qed.

Lemma pass1_inchi_returns entry compound inchi :
  (forall c, compound = Some c -> compound_inchi c <> Raise) ->
  exists inchi1, pass1_inchi entry compound inchi = Ret inchi1.
Proof.
  intro H. unfold pass1_inchi.
  assert (Hb : exists inchi1, pass1_inchi_biocyc compound inchi = Ret inchi1).
  { unfold pass1_inchi_biocyc. destruct compound as [c|]; [|eauto].
    specialize (H c eq_refl).
    destruct (compound_inchi c) as [v|] eqn:E; [|congruence].
    simpl. destruct (ne_empty v); eauto. }
  destruct (is_none inchi); [|eauto].
  destruct entry as [e|]; [|exact Hb].
  destruct (ne_empty (PStr (link_inchi e))); [eauto|exact Hb].
Qed.

Lemma pass2_name_returns name inchi smiles st :
  exists x st', pass2_name services name inchi smiles st = (Ret x, st').
Proof.
  unfold pass2_name. destruct st as [w log].
  destruct (is_none name); [|unfold ret; eauto].
  destruct (pubchem_fallback_run inchi ByInchi smiles BySmiles iupac_name w log)
    as (x & w' & extra & E & _). eauto.
Qed.

Lemma pass2_inchi_returns name inchi smiles st :
  exists x st', pass2_inchi services name inchi smiles st = (Ret x, st').
Proof.
  unfold pass2_inchi. destruct st as [w log].
  destruct (is_none inchi); [|unfold ret; eauto].
  destruct (pubchem_fallback_run name ByName smiles BySmiles pc_inchi w log)
    as (x & w' & extra & E & _). eauto.
Qed.

Lemma pass2_smiles_returns name inchi smiles st :
  exists x st', pass2_smiles services name inchi smiles st = (Ret x, st').
Proof.
  unfold pass2_smiles. destruct st as [w log].
  destruct (is_none smiles); [|unfold ret; eauto].
  destruct (pubchem_fallback_run name ByName inchi ByInchi canonical_smiles w log)
    as (x & w' & extra & E & _). eauto.
Qed.

(** C6, as the code has it: a failure of the link-table lookup, of
    [biocyc.get] or of any PubChem attempt (the call, taking the first
    candidate, reading its attribute) is swallowed; so when reading
    [name] and [inchi] of an object found in the database does not raise,
    [impute_chem] returns a record, whatever else the services do. *)
Theorem impute_chem_returns (id name inchi smiles : pyval) st :
  attributes_readable services ->
  exists values st',
    impute_chem services chem_links id name inchi smiles st = (Ret values, st').
Proof.
  intro Hread. destruct st as [w log]. unfold impute_chem.
  destruct (lookup_biocyc_run id w log) as (compound & w1 & E & Hc).
  rewrite (bind_run _ _ _ _ _ E).
  destruct (pass1_name_returns (lookup_links chem_links id) compound name)
    as (name1 & En).
  { intros c Hs. exact (proj1 (Hread _ _ _ _ (Hc c Hs))). }
  destruct (pass1_inchi_returns (lookup_links chem_links id) compound inchi)
    as (inchi1 & Ei).
  { intros c Hs. exact (proj2 (Hread _ _ _ _ (Hc c Hs))). }
  rewrite En, Ei. unfold lift at 1 2. unfold bind at 1 2.
  set (smiles1 := pass1_smiles (lookup_links chem_links id) smiles).
  destruct (pass2_name_returns name1 inchi1 smiles1 (w1, (log ++ [QBiocyc id])%list))
    as (name2 & s2 & E2).
  rewrite (bind_run _ _ _ _ _ E2).
  destruct (pass2_inchi_returns name2 inchi1 smiles1 s2) as (inchi2 & s3 & E3).
  rewrite (bind_run _ _ _ _ _ E3).
  destruct (pass2_smiles_returns name2 inchi2 smiles1 s3) as (smiles2 & s4 & E4).
  rewrite (bind_run _ _ _ _ _ E4).
  unfold ret. eauto.
Qed.

(** C3, as the code has it: for an id that the link table maps to the
    name [foo] and a record with no field set, pass 1 takes [foo] from
    the link table whatever the database object is, and a returned
    record has the name [foo] whatever the services do.  The database
    is queried by id all the same, before pass 1; the only other queries
    are the PubChem searches for the structure, by the name [foo] and
    then by the link table's smiles, and none is made when the link
    table has the inchi. *)
Theorem impute_chem_name_from_links (cid foo : string) (e : ChemLink) (w : World) :
  dict_get chem_links cid = Some e ->
  link_name e = foo ->
  (forall compound,
      pass1_name (lookup_links chem_links (PStr cid)) compound PNone
      = Ret (PStr foo))
  /\ (forall values,
         result_of (impute_chem services chem_links (PStr cid) PNone PNone PNone) w
         = Ret values ->
         chem_name values = PStr foo)
  /\ exists rest,
       queries_of (impute_chem services chem_links (PStr cid) PNone PNone PNone) w
       = QBiocyc (PStr cid) :: rest
       /\ Forall (fun q => q = QPubChem (PStr foo) ByName
                           \/ q = QPubChem (PStr (link_smiles e)) BySmiles) rest
       /\ (link_inchi e <> "" -> rest = []).
Proof.
  intros He Hfoo. subst foo.
  assert (Hl : lookup_links chem_links (PStr cid) = Some e) by exact He.
  split; [intro compound; rewrite Hl; reflexivity|].
  unfold result_of, queries_of.
  destruct (impute_chem services chem_links (PStr cid) PNone PNone PNone (w, []))
    as [o [w' log']] eqn:Erun.
  simpl fst. simpl snd.
  unfold impute_chem in Erun. rewrite Hl in Erun.
  destruct (lookup_biocyc_run (PStr cid) w []) as (compound & w1 & E & _).
  rewrite (bind_run _ _ _ _ _ E) in Erun. simpl app in Erun.
  change (pass1_name (Some e) compound PNone)
    with (Ret (PStr (link_name e))) in Erun.
  change (pass1_smiles (Some e) PNone) with (PStr (link_smiles e)) in Erun.
  unfold lift at 1 in Erun. unfold bind at 1 in Erun.
  destruct (pass1_inchi (Some e) compound PNone) as [inchi1|] eqn:Ei.
  2:{ simpl in Erun. injection Erun as <- _ <-.
      split; [discriminate|]. exists []. auto. }
  unfold lift at 1 in Erun. unfold bind at 1 in Erun.
  rewrite (bind_run _ _ _ _ _ (pass2_name_set (PStr (link_name e)) _ _ _ eq_refl))
    in Erun.
  destruct (is_none inchi1) eqn:En.
  - unfold pass2_inchi at 1 in Erun. rewrite En in Erun.
    destruct (pubchem_fallback_run (PStr (link_name e)) ByName
                (PStr (link_smiles e)) BySmiles pc_inchi w1 [QBiocyc (PStr cid)])
      as (x & w2 & extra & Ef & Hextra & _).
    rewrite (bind_run _ _ _ _ _ Ef) in Erun.
    rewrite (bind_run _ _ _ _ _
               (pass2_smiles_set _ _ (PStr (link_smiles e)) _ eq_refl)) in Erun.
    injection Erun as <- _ <-.
    split; [now intros values [= <-]|].
    exists extra. split; [reflexivity|split].
    + destruct Hextra as [->| ->]; auto.
    + intro Hne. exfalso. unfold pass1_inchi in Ei.
      destruct (link_inchi e) as [|c li]; [now elim Hne|].
      simpl in Ei. injection Ei as <-. discriminate.
  - rewrite (bind_run _ _ _ _ _ (pass2_inchi_set _ _ _ _ En)) in Erun.
    rewrite (bind_run _ _ _ _ _
               (pass2_smiles_set _ _ (PStr (link_smiles e)) _ eq_refl)) in Erun.
    injection Erun as <- _ <-.
    split; [now intros values [= <-]|].
    exists []. auto.
Qed.

End ResolverProperties.

(** C2, as the code has it: in pass 1 an absent name is taken from the
    first source, link table then database, that knows the id, empty or
    not; an absent inchi from the first of the two, in that order, whose
    value is not the empty string; an absent smiles from the link table
    only; a field that is set is kept. *)
Theorem pass1_sources (entry : option ChemLink) (compound : option Compound)
  (vn vi : pyval) :
  (forall c, compound = Some c ->
             compound_name c = Ret vn /\ compound_inchi c = Ret vi) ->
  pass1_name entry compound PNone
  = Ret (first_present [link_source entry link_name; biocyc_source compound vn])
  /\ pass1_inchi entry compound PNone
     = Ret (first_nonempty [link_source entry link_inchi;
                            biocyc_source compound vi])
  /\ pass1_smiles entry PNone = first_present [link_source entry link_smiles]
  /\ (forall s, pass1_name entry compound (PStr s) = Ret (PStr s)
                /\ pass1_inchi entry compound (PStr s) = Ret (PStr s)
                /\ pass1_smiles entry (PStr s) = PStr s).
Proof.
  intro H. repeat split.
  - destruct entry as [e|]; [reflexivity|].
    destruct compound as [c|]; [|reflexivity].
    simpl. exact (proj1 (H c eq_refl)).
  - unfold pass1_inchi, pass1_inchi_biocyc. simpl is_none. cbv iota.
    destruct entry as [e|]; simpl link_source; simpl first_nonempty.
    + destruct (ne_empty (PStr (link_inchi e))); [reflexivity|].
      destruct compound as [c|]; [|reflexivity].
      rewrite (proj2 (H c eq_refl)). simpl. now destruct (ne_empty vi).
    + destruct compound as [c|]; [|reflexivity].
      rewrite (proj2 (H c eq_refl)). simpl. now destruct (ne_empty vi).
  - now destruct entry.
Qed.

(** C2 at a link entry without name for an id the database calls "bar". *)
Lemma pass1_sources_witness :
  (forall c, Some compound_bar = Some c ->
             compound_name c = Ret (PStr "bar") /\ compound_inchi c = Ret (PStr "I"))
  /\ pass1_name (Some entry_unnamed) (Some compound_bar) PNone = Ret (PStr "")
  /\ pass1_inchi (Some entry_unnamed) (Some compound_bar) PNone = Ret (PStr "I")
  /\ pass1_smiles (Some entry_unnamed) PNone = PStr "".
Proof.
  assert (H : forall c, Some compound_bar = Some c ->
                compound_name c = Ret (PStr "bar")
                /\ compound_inchi c = Ret (PStr "I")).
  { intros c [= <-]. split; reflexivity. }
  split; [exact H|].
  destruct (pass1_sources (Some entry_unnamed) (Some compound_bar)
              (PStr "bar") (PStr "I") H) as (Hn & Hi & Hs & _).
  repeat split; assumption.
Defined.

(** C2, refuted as stated: an empty name in the link table is taken,
    although the database has a non-empty one. *)
Lemma pass1_name_takes_empty_link_name :
  pass1_name (Some entry_unnamed) (Some compound_bar) PNone = Ret (PStr "")
  /\ first_nonempty [link_source (Some entry_unnamed) link_name;
                     biocyc_source (Some compound_bar) (PStr "bar")]
     = PStr "bar".
Proof.
  split; reflexivity.
Qed.

Lemma services_up_filled : candidates_filled services_up.
Proof.
  intros v ns w cs w' c H G. simpl in H. injection H as <- _.
  injection G as <-. repeat split; discriminate.
Qed.

Lemma services_up_readable : attributes_readable services_up.
Proof.
  intros id w c w' H. simpl in H. injection H as <- _.
  split; discriminate.
Qed.

(** C1 with both services answering. *)
Lemma impute_chem_fields_set_witness :
  candidates_filled services_up
  /\ all_fields_set {| chem_name := PStr "foo";
                       chem_inchi := PStr "InChI=1S/H2O/h1H2";
                       chem_smiles := PStr "O" |}.
Proof.
  split; [exact services_up_filled|].
  apply (impute_chem_fields_set services_up links_foo
           (PStr "CPD-1") PNone PNone PNone (tt, []) _
           (tt, [QBiocyc (PStr "CPD-1"); QPubChem (PStr "foo") ByName])).
  - exact services_up_filled.
  - reflexivity.
Defined.

(** C1, refuted as stated: a first candidate without IUPAC name leaves
    the name of the returned record absent. *)
Lemma impute_chem_absent_name :
  exists values,
    result_of (impute_chem services_unnamed [] (PStr "CPD-1") PNone PNone PNone) tt
    = Ret values
    /\ chem_name values = PNone /\ ~ all_fields_set values.
Proof.
  eexists. split; [reflexivity|]. split; [reflexivity|].
  intros [H _]. now apply H.
Qed.

(** C6 with both services answering. *)
Lemma impute_chem_returns_witness :
  attributes_readable services_up
  /\ exists values st',
       impute_chem services_up links_foo (PStr "CPD-1") PNone PNone PNone (tt, [])
       = (Ret values, st').
Proof.
  split; [exact services_up_readable|].
  exact (impute_chem_returns services_up links_foo
           (PStr "CPD-1") PNone PNone PNone (tt, []) services_up_readable).
Defined.

(** C6, refuted as stated: an exception raised by reading
    [compound.inchi] in pass 1 leaves [impute_chem]. *)
Lemma impute_chem_propagates :
  result_of (impute_chem services_no_inchi_attr []
               (PStr "CPD-1") PNone PNone PNone) tt
  = Raise.
Proof.
  reflexivity.
Qed.

(** C3 for the id [CPD-1] with the name "foo" in the link table. *)
Lemma impute_chem_name_from_links_witness :
  dict_get links_foo "CPD-1"
  = Some {| link_name := "foo"; link_inchi := ""; link_smiles := "O" |}
  /\ forall values,
       result_of (impute_chem services_up links_foo
                    (PStr "CPD-1") PNone PNone PNone) tt = Ret values ->
       chem_name values = PStr "foo".
Proof.
  split; [reflexivity|].
  exact (proj1 (proj2 (impute_chem_name_from_links services_up links_foo
                         "CPD-1" "foo" _ tt eq_refl eq_refl))).
Defined.

(** C3, refuted as stated: the database is queried although the link
    table has every field, and with an empty inchi in the link table the
    returned record depends on what PubChem answers. *)
Lemma impute_chem_queries_database :
  queries_of (impute_chem services_down links_full
                (PStr "CPD-1") PNone PNone PNone) tt
  = [QBiocyc (PStr "CPD-1")]
  /\ result_of (impute_chem services_down links_foo
                  (PStr "CPD-1") PNone PNone PNone) tt
     <> result_of (impute_chem services_up links_foo
                     (PStr "CPD-1") PNone PNone PNone) tt.
Proof.
  split; [reflexivity|discriminate].
Qed.

(** ** The Output Writer *)

Lemma append_assoc (a b c : string) : (a ++ b) ++ c = a ++ (b ++ c).
Proof.
  induction a as [|x a IH]; simpl; [reflexivity|]. now rewrite IH.
Qed.


(** C7 at a record whose name is absent, as [impute_chem] returns it
    when the first PubChem candidate has no IUPAC name: the row is not
    written, the writer stops with the exception of [tab + None]; an
    absent inchi or smiles, in contrast, only leaves its column out. *)
Theorem write_chems_absent_name_raises :
  result_of (extract_chems services_unnamed [] compounds_unnamed) tt
  = Ret chems_absent_name
  /\ write_chems chems_absent_name = ([chems_header], Raise)
  /\ forall id name : string,
       chem_row (PStr id)
         {| chem_name := PStr name; chem_inchi := PNone; chem_smiles := PNone |}
       = Ret (PStr (id ++ PyStr.TAB ++ name ++ PyStr.NL)).
Proof.
  split; [reflexivity|]. split; [reflexivity|].
  intros id name. unfold chem_row. simpl.
  now rewrite append_assoc.
Qed.

(** ** The Link Table Loader *)

Lemma length_dict_set {K V : Type} `{Key K} (d : dict K V) (k : K) (v : V) :
  length (dict_set d k v) <= S (length d).
Proof.
  induction d as [|[k' v'] d IH]; simpl; [lia|].
  destruct (key_eqb k' k); simpl; lia.
Qed.

(** A line whose second column is white space leaves the table as it is. *)
Lemma load_rxn_links_line_skip table line :
  has_space_codes line = true -> load_rxn_links_line table line = Ret table.
Proof.
  unfold has_space_codes, is_data_line, load_rxn_links_line, getitem.
  destruct (PyStr.startswith line "#"); [discriminate|]. cbn [negb andb].
  destruct (nth_error (PyStr.split PyStr.TAB line) 1) as [codes|]; [|discriminate].
  cbn [obind]. now intros ->.
Qed.

Lemma load_rxn_links_line_size table line table' :
  load_rxn_links_line table line = Ret table' ->
  length table' + (if has_space_codes line then 1 else 0)
  <= length table + (if is_data_line line then 1 else 0).
Proof.
  unfold has_space_codes, is_data_line, load_rxn_links_line, getitem.
  destruct (PyStr.startswith line "#"); cbn [negb andb];
    [intros [= <-]; lia|].
  destruct (nth_error (PyStr.split PyStr.TAB line) 1) as [codes|];
    [|discriminate].
  cbn [obind]. destruct (PyStr.isspace codes); [intros [= <-]; lia|].
  destruct (nth_error (PyStr.split PyStr.TAB line) 0) as [e0|]; [|discriminate].
  cbn [obind]. intros [= <-].
  pose proof (length_dict_set table (PyStr.strip e0)
                (ec_numbers (PyStr.split PyStr.TAB line))). lia.
Qed.

Lemma fold_rxn_links_size lines : forall table table',
  fold_lines load_rxn_links_line table lines = Ret table' ->
  length table' + length (filter has_space_codes lines)
  <= length table + length (filter is_data_line lines).
Proof.
  induction lines as [|l lines IH]; simpl; intros table table' H.
  - injection H as <-. lia.
  - destruct (load_rxn_links_line table l) as [t1|] eqn:E; [|discriminate].
    simpl in H. apply IH in H. apply load_rxn_links_line_size in E.
    destruct (has_space_codes l), (is_data_line l); simpl in *; lia.
Qed.

Lemma fold_rxn_links_filter lines : forall table,
  fold_lines load_rxn_links_line table
    (filter (fun l => negb (has_space_codes l)) lines)
  = fold_lines load_rxn_links_line table lines.
Proof.
  induction lines as [|l lines IH]; simpl; intro table; [reflexivity|].
  destruct (has_space_codes l) eqn:E; simpl.
  - rewrite (load_rxn_links_line_skip table l E). simpl. apply IH.
  - destruct (load_rxn_links_line table l); simpl; [apply IH|reflexivity].
Qed.

(** X25: a row whose second column is white space for [isspace] adds
    nothing to the table: the table is the one of the file without
    these rows, and it has fewer entries than the file has data lines
    by at least the number of these rows. *)
Theorem load_rxn_links_skips_space_codes (lines : list string)
  (rxn_links : dict string (list string)) :
  load_rxn_links lines = Ret rxn_links ->
  load_rxn_links (filter (fun l => negb (has_space_codes l)) lines) = Ret rxn_links
  /\ length rxn_links + length (filter has_space_codes lines)
     <= length (filter is_data_line lines).
Proof.
  unfold load_rxn_links. intro H. split.
  - now rewrite fold_rxn_links_filter.
  - apply fold_rxn_links_size in H. simpl in H. exact H.
Qed.

(** X25 on a file with a comment, a row without codes and two rows
    with. *)
Lemma load_rxn_links_skips_space_codes_witness :
  load_rxn_links rxn_links_lines
  = Ret [("RXN-1", ["1.1.1.1"]); ("RXN-3", ["2.7.1.1"; "2.7.1.2"])]
  /\ 2 + length (filter has_space_codes rxn_links_lines)
     <= length (filter is_data_line rxn_links_lines).
Proof.
  split; [reflexivity|].
  exact (proj2 (load_rxn_links_skips_space_codes rxn_links_lines _ eq_refl)).
Defined.

(** C9 at a row whose second column is blank, the last line of a file
    that does not end with a newline: the empty string is not white
    space for [isspace], so the row is not skipped; it is stored with
    one empty code, and the table has as many entries as the file has
    data lines. *)
Lemma load_rxn_links_keeps_empty_codes :
  nth_error (PyStr.split PyStr.TAB ("RXN-1" ++ PyStr.TAB)) 1 = Some ""
  /\ load_rxn_links ["RXN-1" ++ PyStr.TAB] = Ret [("RXN-1", [""])]
  /\ length (filter is_data_line ["RXN-1" ++ PyStr.TAB]) = 1.
Proof.
  repeat split.
Qed.

(** ** Dictionaries *)

Section DictProperties.

Context {K V : Type} `{Key K}.

Lemma key_eqb_refl (k : K) : key_eqb k k = true.
Proof. now apply key_eqb_spec. Qed.



Lemma in_keys_dict_set (d : dict K V) (k : K) (v : V) (x : K) :
  In x (dict_keys (dict_set d k v)) <-> In x (dict_keys d) \/ x = k.
Proof.
  induction d as [|[k' v'] d IH]; simpl.
  - intuition.
  - destruct (key_eqb k' k) eqn:E; simpl.
    + apply key_eqb_spec in E. subst k'. intuition.
    + rewrite IH. intuition.
Qed.

Lemma NoDup_keys_dict_set (d : dict K V) (k : K) (v : V) :
  NoDup (dict_keys d) -> NoDup (dict_keys (dict_set d k v)).
Proof.
  induction d as [|[k' v'] d IH]; simpl; intro Hd.
  - constructor; [intros []|constructor].
  - inversion Hd as [|? ? Hnotin Hrest]; subst.
    destruct (key_eqb k' k) eqn:E; simpl; [now constructor|].
    constructor; [|now apply IH].
    rewrite in_keys_dict_set. intros [Hin| ->]; [contradiction|].
    rewrite key_eqb_refl in E. discriminate.
Qed.

End DictProperties.

(** ** The Record Parser and the round trip of ids *)

(** A line that is not a terminator sets the id exactly when it is a
    [UNIQUE-ID] line. *)
Lemma chem_field_line_id (acc : ChemAcc) (line : string) (acc' : ChemAcc) :
  chem_field_line acc line = Ret acc' ->
  acc_id acc' = match unique_id_of line with
                | Some i => PStr i
                | None => acc_id acc
                end.
Proof.
  unfold chem_field_line, unique_id_of, getitem.
  destruct (PyStr.split " - " line) as [|t [|v rest]]; cbn [hd nth_error].
  - simpl. now intros [= <-].
  - destruct (String.eqb t "UNIQUE-ID"); [discriminate|].
    destruct (String.eqb t "COMMON-NAME"); [discriminate|].
    destruct (String.eqb t "NON-STANDARD-INCHI" || String.eqb t "INCHI");
      [discriminate|].
    destruct (String.eqb t "SMILES"); [discriminate|].
    now intros [= <-].
  - destruct (String.eqb t "UNIQUE-ID"); [now intros [= <-]|].
    destruct (String.eqb t "COMMON-NAME"); [now intros [= <-]|].
    destruct (String.eqb t "NON-STANDARD-INCHI" || String.eqb t "INCHI");
      [now intros [= <-]|].
    destruct (String.eqb t "SMILES"); now intros [= <-].
Qed.


Section RoundTrip.

Context {World : Type}.
Variable services : Services World.
Variable chem_links : dict string ChemLink.

(** The keys of the table grow by the ids of the records that are
    closed, and stay without repetition. *)
Lemma extract_chems_loop_keys (lines : list string) :
  forall chems acc st out st',
    extract_chems_loop services chem_links lines chems acc st = (Ret out, st') ->
    NoDup (dict_keys chems) ->
    NoDup (dict_keys out)
    /\ forall k, In k (dict_keys out)
                 <-> In k (dict_keys chems) \/ In k (record_ids lines (acc_id acc)).
Proof.
  induction lines as [|l lines IH]; simpl; intros chems acc st out st' Hrun Hnd.
  - injection Hrun as <- _. simpl. intuition.
  - destruct (String.eqb l "");
      [injection Hrun as <- _; split; [assumption|]; intro k; simpl; intuition|].
    apply bind_ret_inv in Hrun as ([chems1 acc1] & st1 & Hline & Hrest).
    simpl in Hrest. unfold extract_chems_line in Hline.
    destruct (PyStr.startswith l "//").
    + apply bind_ret_inv in Hline as (values & st2 & _ & Hret).
      injection Hret as <- <- _.
      apply IH in Hrest as [Hout Hkeys]; [|now apply NoDup_keys_dict_set].
      split; [assumption|].
      intro k. rewrite Hkeys, in_keys_dict_set. simpl. intuition.
    + apply bind_ret_inv in Hline as (acc' & st2 & Hfield & Hret).
      injection Hret as <- <- _.
      apply lift_ret_inv in Hfield as [Hfield _].
      apply chem_field_line_id in Hfield.
      apply IH in Hrest as [Hout Hkeys]; [|assumption].
      split; [assumption|].
      intro k. rewrite Hkeys, Hfield. now destruct (unique_id_of l).
Qed.

End RoundTrip.








(** With a tab inside an id the first column no longer tells the rows
    apart: the ids [A] and [A<tab>B] give two rows whose first column
    is [A]. *)
Lemma tab_in_id_repeats_first_column :
  record_ids compounds_tab PNone = [PStr "A"; PStr ("A" ++ PyStr.TAB ++ "B")]
  /\ (exists chems,
        result_of (extract_chems services_up [] compounds_tab) tt = Ret chems
        /\ snd (write_chems chems) = Ret tt
        /\ row_keys (fst (write_chems chems)) = ["A"; "A"]).
Proof.
  split; [reflexivity|].
  eexists. split; [reflexivity|]. split; reflexivity.
Qed.


(** ** Records without [UNIQUE-ID] *)

Lemma startswith_nonempty (l p : string) :
  PyStr.startswith l p = true -> p <> "" -> String.eqb l "" = false.
Proof.
  unfold PyStr.startswith. destruct l as [|c l]; [|reflexivity].
  destruct p; [congruence|discriminate].
Qed.






Section AnonymousRecords.

Context {World : Type}.
Variable services : Services World.
Variable chem_links : dict string ChemLink.



End AnonymousRecords.


(** * Further properties of the code *)

(** ** The Imputation Resolver: queries and results *)

Section ResolverRuns.

Context {World : Type}.
Variable services : Services World.
Variable chem_links : dict string ChemLink.

Definition pubchem_only (qs : list query) : Prop :=
  Forall (fun q => is_pubchem q = true) qs.

Lemma pubchem_fallback_log v1 ns1 v2 ns2 attr w log :
  exists x w' extra,
    pubchem_fallback services v1 ns1 v2 ns2 attr (w, log)
    = (Ret x, (w', (log ++ extra)%list))
    /\ pubchem_only extra /\ length extra <= 2.
Proof.
  destruct (pubchem_fallback_run services v1 ns1 v2 ns2 attr w log)
    as (x & w' & extra & E & Hextra & _).
  exists x, w', extra. split; [exact E|].
  destruct Hextra as [->| ->]; split; simpl; try lia;
    repeat constructor.
Qed.

Lemma pass2_name_run name inchi smiles w log :
  exists x w' extra,
    pass2_name services name inchi smiles (w, log)
    = (Ret x, (w', (log ++ extra)%list))
    /\ pubchem_only extra /\ length extra <= 2.
Proof.
  unfold pass2_name. destruct (is_none name).
  - apply pubchem_fallback_log.
  - exists name, w, []. rewrite app_nil_r. repeat split; [constructor|simpl; lia].
Qed.

Lemma pass2_inchi_run name inchi smiles w log :
  exists x w' extra,
    pass2_inchi services name inchi smiles (w, log)
    = (Ret x, (w', (log ++ extra)%list))
    /\ pubchem_only extra /\ length extra <= 2.
Proof.
  unfold pass2_inchi. destruct (is_none inchi).
  - apply pubchem_fallback_log.
  - exists inchi, w, []. rewrite app_nil_r. repeat split; [constructor|simpl; lia].
Qed.

Lemma pass2_smiles_run name inchi smiles w log :
  exists x w' extra,
    pass2_smiles services name inchi smiles (w, log)
    = (Ret x, (w', (log ++ extra)%list))
    /\ pubchem_only extra /\ length extra <= 2.
Proof.
  unfold pass2_smiles. destruct (is_none smiles).
  - apply pubchem_fallback_log.
  - exists smiles, w, []. rewrite app_nil_r. repeat split; [constructor|simpl; lia].
Qed.

(** The shape of every run of [impute_chem]: the database query, then
    PubChem queries only, six at most; and a record is returned unless
    an attribute of the database object could not be read. *)
Lemma impute_chem_run (id name inchi smiles : pyval) w log :
  exists o w' rest,
    impute_chem services chem_links id name inchi smiles (w, log)
    = (o, (w', (log ++ QBiocyc id :: rest)%list))
    /\ pubchem_only rest /\ length rest <= 6
    /\ (attributes_readable services -> exists values, o = Ret values).
Proof.
  unfold impute_chem.
  destruct (lookup_biocyc_run services id w log) as (compound & w1 & E & Hc).
  rewrite (bind_run _ _ _ _ _ E).
  set (entry := lookup_links chem_links id).
  destruct (pass1_name entry compound name) as [name1|] eqn:En.
  2:{ unfold lift at 1. unfold bind at 1.
      exists Raise, w1, []. repeat split; [constructor|simpl; lia|].
      intro Hread. exfalso.
      destruct (pass1_name_returns entry compound name) as (x & Hx);
        [|congruence].
      intros c Hs. exact (proj1 (Hread _ _ _ _ (Hc c Hs))). }
  unfold lift at 1. unfold bind at 1.
  destruct (pass1_inchi entry compound inchi) as [inchi1|] eqn:Ei.
  2:{ unfold lift at 1. unfold bind at 1.
      exists Raise, w1, []. repeat split; [constructor|simpl; lia|].
      intro Hread. exfalso.
      destruct (pass1_inchi_returns entry compound inchi) as (x & Hx);
        [|congruence].
      intros c Hs. exact (proj2 (Hread _ _ _ _ (Hc c Hs))). }
  unfold lift at 1. unfold bind at 1.
  set (smiles1 := pass1_smiles entry smiles).
  destruct (pass2_name_run name1 inchi1 smiles1 w1 (log ++ [QBiocyc id])%list)
    as (name2 & w2 & e1 & E1 & P1 & L1).
  rewrite (bind_run _ _ _ _ _ E1).
  destruct (pass2_inchi_run name2 inchi1 smiles1 w2 ((log ++ [QBiocyc id]) ++ e1)%list)
    as (inchi2 & w3 & e2 & E2 & P2 & L2).
  rewrite (bind_run _ _ _ _ _ E2).
  destruct (pass2_smiles_run name2 inchi2 smiles1 w3
              (((log ++ [QBiocyc id]) ++ e1) ++ e2)%list)
    as (smiles2 & w4 & e3 & E3 & P3 & L3).
  rewrite (bind_run _ _ _ _ _ E3).
  eexists _, w4, (e1 ++ e2 ++ e3)%list. split.
  - unfold ret. repeat rewrite <- app_assoc. reflexivity.
  - split; [|split].
    + unfold pubchem_only in *.
      apply Forall_app; split; [assumption|].
      apply Forall_app; split; assumption.
    + repeat rewrite length_app. lia.
    + eauto.
Qed.

(** X1: a record that comes with all three fields is returned as it is,
    whatever the link table and the services hold; the one query made
    is the database lookup by id. *)
Theorem impute_chem_keeps_complete_record (id : pyval) (n i s : string) w log :
  exists w',
    impute_chem services chem_links id (PStr n) (PStr i) (PStr s) (w, log)
    = (Ret {| chem_name := PStr n; chem_inchi := PStr i; chem_smiles := PStr s |},
       (w', (log ++ [QBiocyc id])%list)).
Proof.
  unfold impute_chem.
  destruct (lookup_biocyc_run services id w log) as (compound & w1 & E & _).
  rewrite (bind_run _ _ _ _ _ E). exists w1. reflexivity.
Qed.

(** X2: every call of [impute_chem], returning or raising, queries the
    database once, first, and after that PubChem only, at most six
    times. *)
Theorem impute_chem_query_bound (id name inchi smiles : pyval) w :
  exists rest,
    queries_of (impute_chem services chem_links id name inchi smiles) w
    = QBiocyc id :: rest
    /\ forallb is_pubchem rest = true
    /\ length rest <= 6.
Proof.
  unfold queries_of.
  destruct (impute_chem_run id name inchi smiles w [])
    as (o & w' & rest & E & Hp & Hl & _).
  rewrite E. exists rest. simpl. repeat split; [|exact Hl].
  apply forallb_forall. intros q Hq.
  exact (proj1 (Forall_forall _ _) Hp q Hq).
Qed.

(** X3: an absent inchi is searched by name first.  When that search
    gives a first candidate whose inchi can be read, this value is taken
    and no second search is made; when it raises or finds nothing, the
    search by smiles follows, and its first candidate's inchi is taken. *)
Theorem pass2_inchi_order (name smiles : pyval) w log :
  (forall cs w1 c x,
      pcp_get_compounds services name ByName w = (Ret cs, w1) ->
      getitem cs 0 = Ret c -> pc_inchi c = Ret x ->
      pass2_inchi services name PNone smiles (w, log)
      = (Ret x, (w1, (log ++ [QPubChem name ByName])%list)))
  /\ (forall o1 w1 cs w2 c x,
         pcp_get_compounds services name ByName w = (o1, w1) ->
         (o1 = Raise \/ o1 = Ret []) ->
         pcp_get_compounds services smiles BySmiles w1 = (Ret cs, w2) ->
         getitem cs 0 = Ret c -> pc_inchi c = Ret x ->
         pass2_inchi services name PNone smiles (w, log)
         = (Ret x, (w2, (log ++ [QPubChem name ByName;
                                 QPubChem smiles BySmiles])%list))).
Proof.
  split.
  - intros cs w1 c x Hq Hc Hx.
    unfold pass2_inchi, pubchem_fallback, try_except, pubchem_first, bind,
      call_get_compounds, lift. simpl.
    now rewrite Hq, Hc, Hx.
  - intros o1 w1 cs w2 c x Hq1 Ho1 Hq2 Hc Hx.
    unfold pass2_inchi, pubchem_fallback, try_except, pubchem_first, bind,
      call_get_compounds, lift. simpl.
    rewrite Hq1.
    destruct Ho1 as [->| ->]; simpl; rewrite Hq2, Hc, Hx;
      now rewrite <- app_assoc.
Qed.

(** X4: for an id that the link table and the database do not know,
    with every PubChem search raising or finding nothing, a record
    without fields comes back with three empty strings, after all six
    searches were tried: PubChem is also asked for [None] and for the
    empty name. *)
Theorem impute_chem_all_sources_fail (id : pyval) (w : World) :
  lookup_links chem_links id = None ->
  (forall w0, fst (biocyc_get services id w0) = Raise
              \/ fst (biocyc_get services id w0) = Ret None) ->
  (forall v ns w0, fst (pcp_get_compounds services v ns w0) = Raise
                   \/ fst (pcp_get_compounds services v ns w0) = Ret []) ->
  result_of (impute_chem services chem_links id PNone PNone PNone) w
  = Ret {| chem_name := PStr ""; chem_inchi := PStr ""; chem_smiles := PStr "" |}
  /\ queries_of (impute_chem services chem_links id PNone PNone PNone) w
     = [QBiocyc id;
        QPubChem PNone ByInchi; QPubChem PNone BySmiles;
        QPubChem (PStr "") ByName; QPubChem PNone BySmiles;
        QPubChem (PStr "") ByName; QPubChem (PStr "") ByInchi].
Proof.
  intros Hlinks Hbio Hpcp.
  assert (Hfirst : forall v ns attr w0 log,
    exists w1, pubchem_first services v ns attr (w0, log)
               = (Raise, (w1, (log ++ [QPubChem v ns])%list))).
  { intros v ns attr w0 log.
    unfold pubchem_first, bind, call_get_compounds, lift. simpl.
    specialize (Hpcp v ns w0).
    destruct (pcp_get_compounds services v ns w0) as [o w1]. simpl in Hpcp.
    exists w1. destruct Hpcp as [->| ->]; reflexivity. }
  assert (Hfall : forall v1 ns1 v2 ns2 attr w0 log,
    exists w2, pubchem_fallback services v1 ns1 v2 ns2 attr (w0, log)
               = (Ret (PStr ""),
                  (w2, (log ++ [QPubChem v1 ns1; QPubChem v2 ns2])%list))).
  { intros v1 ns1 v2 ns2 attr w0 log. unfold pubchem_fallback, try_except.
    destruct (Hfirst v1 ns1 attr w0 log) as (w1 & ->).
    destruct (Hfirst v2 ns2 attr w1 (log ++ [QPubChem v1 ns1])%list) as (w2 & ->).
    exists w2. unfold ret. now rewrite <- app_assoc. }
  assert (Hlook : exists w1, lookup_biocyc services id (w, [])
                             = (Ret None, (w1, [QBiocyc id]))).
  { unfold lookup_biocyc, try_except, call_biocyc_get, ret. simpl.
    specialize (Hbio w). destruct (biocyc_get services id w) as [o w1].
    simpl in Hbio. exists w1. destruct Hbio as [->| ->]; reflexivity. }
  destruct Hlook as (w1 & Hlook).
  destruct (Hfall PNone ByInchi PNone BySmiles iupac_name w1 [QBiocyc id])
    as (w2 & E1).
  destruct (Hfall (PStr "") ByName PNone BySmiles pc_inchi w2
              ([QBiocyc id] ++ [QPubChem PNone ByInchi; QPubChem PNone BySmiles])%list)
    as (w3 & E2).
  destruct (Hfall (PStr "") ByName (PStr "") ByInchi canonical_smiles w3
              (([QBiocyc id] ++ [QPubChem PNone ByInchi; QPubChem PNone BySmiles])
               ++ [QPubChem (PStr "") ByName; QPubChem PNone BySmiles])%list)
    as (w4 & E3).
  unfold result_of, queries_of.
  destruct (impute_chem services chem_links id PNone PNone PNone (w, []))
    as [o [w' log']] eqn:Erun.
  simpl fst. simpl snd.
  unfold impute_chem in Erun. rewrite Hlinks in Erun.
  rewrite (bind_run _ _ _ _ _ Hlook) in Erun.
  change (pass1_name None None PNone) with (Ret PNone) in Erun.
  change (pass1_inchi None None PNone) with (Ret PNone) in Erun.
  change (pass1_smiles None PNone) with PNone in Erun.
  unfold lift in Erun. unfold bind at 1 2 in Erun.
  unfold pass2_name at 1 in Erun. simpl is_none in Erun. cbv iota in Erun.
  rewrite (bind_run _ _ _ _ _ E1) in Erun.
  unfold pass2_inchi at 1 in Erun. simpl is_none in Erun. cbv iota in Erun.
  rewrite (bind_run _ _ _ _ _ E2) in Erun.
  unfold pass2_smiles at 1 in Erun. simpl is_none in Erun. cbv iota in Erun.
  rewrite (bind_run _ _ _ _ _ E3) in Erun.
  unfold ret in Erun. injection Erun as <- _ <-.
  split; reflexivity.
Qed.

End ResolverRuns.

(** ** The Record Parser for chemicals: queries, errors, last value *)

Lemma biocyc_queries_pubchem (qs : list query) :
  pubchem_only qs -> biocyc_queries qs = [].
Proof.
  unfold pubchem_only, biocyc_queries.
  induction 1 as [|q qs Hq _ IH]; simpl; [reflexivity|].
  now rewrite Hq.
Qed.

Lemma biocyc_queries_app (a b : list query) :
  biocyc_queries (a ++ b) = (biocyc_queries a ++ biocyc_queries b)%list.
Proof. apply filter_app. Qed.

Lemma append_nil_r (s : string) : s ++ "" = s.
Proof. induction s as [|c s IH]; simpl; [reflexivity|now rewrite IH]. Qed.

Lemma split_go_nonempty (sep : string) (s : string) :
  forall skip acc, PyStr.split_go sep skip acc s <> [].
Proof.
  induction s as [|c s IH]; cbn [PyStr.split_go]; intros skip acc;
    [discriminate|].
  destruct skip; [|apply IH].
  destruct (String.prefix sep (String c s)); [discriminate|apply IH].
Qed.

(** A split into one piece returns the string itself. *)
Lemma split_go_single (sep : string) (s : string) :
  forall acc t, PyStr.split_go sep 0 acc s = [t] -> t = acc ++ s.
Proof.
  induction s as [|c s IH]; cbn [PyStr.split_go]; intros acc t H.
  - injection H as <-. now rewrite append_nil_r.
  - destruct (String.prefix sep (String c s)).
    + injection H as _ H. now apply split_go_nonempty in H.
    + apply IH in H. now rewrite append_assoc in H.
Qed.

Lemma occurs_append_last (c : ascii) (p : string) :
  occurs c (p ++ String c "") = true.
Proof.
  induction p as [|d p IH]; simpl.
  - now rewrite Ascii.eqb_refl.
  - rewrite IH. apply orb_true_r.
Qed.

Lemma newline_ended_neq (line key : string) :
  newline_ended line -> occurs "010"%char key = false ->
  String.eqb line key = false.
Proof.
  intros [p ->] Hkey. apply String.eqb_neq. intros Heq.
  pose proof (occurs_append_last "010"%char p) as H.
  unfold PyStr.NL in Heq. rewrite Heq in H. congruence.
Qed.

(** A line that ends with a newline never raises in the chemical
    parser: a key without separator is not recognised as a key. *)
Lemma chem_field_line_returns (acc : ChemAcc) (line : string) :
  newline_ended line -> exists acc', chem_field_line acc line = Ret acc'.
Proof.
  intro Hnl. unfold chem_field_line, getitem.
  destruct (PyStr.split " - " line) as [|t [|v rest]] eqn:E; cbn [hd nth_error].
  - now apply split_go_nonempty in E.
  - apply split_go_single in E. simpl in E. subst t.
    rewrite !(newline_ended_neq line _ Hnl) by reflexivity.
    simpl. eauto.
  - destruct (String.eqb t "UNIQUE-ID"); [simpl; eauto|].
    destruct (String.eqb t "COMMON-NAME"); [simpl; eauto|].
    destruct (String.eqb t "NON-STANDARD-INCHI" || String.eqb t "INCHI");
      [simpl; eauto|].
    destruct (String.eqb t "SMILES"); simpl; eauto.
Qed.

Lemma chem_field_line_inchi (acc : ChemAcc) (line : string) (acc' : ChemAcc) :
  chem_field_line acc line = Ret acc' ->
  acc_inchi acc' = match inchi_value line with
                   | Some v => PStr v
                   | None => acc_inchi acc
                   end.
Proof.
  unfold chem_field_line, inchi_value, getitem.
  destruct (PyStr.split " - " line) as [|t [|v rest]]; cbn [hd nth_error].
  - simpl. now intros [= <-].
  - destruct (String.eqb t "UNIQUE-ID"); [discriminate|].
    destruct (String.eqb t "COMMON-NAME"); [discriminate|].
    destruct (String.eqb t "NON-STANDARD-INCHI" || String.eqb t "INCHI");
      [discriminate|].
    destruct (String.eqb t "SMILES"); [discriminate|].
    now intros [= <-].
  - destruct (String.eqb t "UNIQUE-ID") eqn:E1.
    { apply String.eqb_eq in E1. subst t. now intros [= <-]. }
    destruct (String.eqb t "COMMON-NAME") eqn:E2.
    { apply String.eqb_eq in E2. subst t. now intros [= <-]. }
    destruct (String.eqb t "NON-STANDARD-INCHI" || String.eqb t "INCHI");
      [now intros [= <-]|].
    destruct (String.eqb t "SMILES"); now intros [= <-].
Qed.

Lemma fold_lines_app {T : Type} (step : T -> string -> outcome T)
  (a b : list string) : forall t,
  fold_lines step t (a ++ b)
  = obind (fold_lines step t a) (fun t' => fold_lines step t' b).
Proof.
  induction a as [|l a IH]; simpl; intro t; [reflexivity|].
  destruct (step t l); simpl; [apply IH|reflexivity].
Qed.

Lemma fold_chem_fields_keep_inchi (post : list string) : forall acc acc',
  Forall (fun l => inchi_value l = None) post ->
  fold_lines chem_field_line acc post = Ret acc' ->
  acc_inchi acc' = acc_inchi acc.
Proof.
  induction post as [|l post IH]; simpl; intros acc acc' Hpost H.
  - now injection H as <-.
  - inversion Hpost as [|? ? Hl Hrest]; subst.
    destruct (chem_field_line acc l) as [acc1|] eqn:E; [|discriminate].
    simpl in H. rewrite (IH _ _ Hrest H).
    apply chem_field_line_inchi in E. now rewrite Hl in E.
Qed.

(** X7: within a record the last [INCHI] or [NON-STANDARD-INCHI] line
    decides the inchi, whichever of the two keys it has and whatever
    came before. *)
Theorem last_inchi_line_wins (pre post : list string) (l v : string)
  (acc acc' : ChemAcc) :
  inchi_value l = Some v ->
  Forall (fun l' => inchi_value l' = None) post ->
  fold_lines chem_field_line acc (pre ++ l :: post) = Ret acc' ->
  acc_inchi acc' = PStr v.
Proof.
  intros Hl Hpost H. rewrite fold_lines_app in H.
  destruct (fold_lines chem_field_line acc pre) as [acc1|]; [|discriminate].
  simpl in H.
  destruct (chem_field_line acc1 l) as [acc2|] eqn:E; [|discriminate].
  simpl in H. rewrite (fold_chem_fields_keep_inchi _ _ _ Hpost H).
  apply chem_field_line_inchi in E. now rewrite Hl in E.
Qed.

Section ParserRuns.

Context {World : Type}.
Variable services : Services World.
Variable chem_links : dict string ChemLink.

Lemma extract_chems_loop_log (lines : list string) :
  forall chems acc w log out w' log',
    extract_chems_loop services chem_links lines chems acc (w, log)
    = (Ret out, (w', log')) ->
    exists extra,
      log' = (log ++ extra)%list
      /\ biocyc_queries extra = map QBiocyc (record_ids lines (acc_id acc))
      /\ length extra <= 7 * length (record_ids lines (acc_id acc)).
Proof.
  induction lines as [|l lines IH]; simpl; intros chems acc w log out w' log' H.
  - injection H as _ _ <-. exists []. rewrite app_nil_r. simpl. auto.
  - destruct (String.eqb l "").
    { injection H as _ _ <-. exists []. rewrite app_nil_r. simpl. auto. }
    apply bind_ret_inv in H as ([chems1 acc1] & [w1 log1] & Hline & Hrest).
    simpl in Hrest. unfold extract_chems_line in Hline.
    destruct (PyStr.startswith l "//").
    + apply bind_ret_inv in Hline as (values & st2 & Himp & Hret).
      injection Hret as <- <- ->.
      destruct (impute_chem_run services chem_links (acc_id acc) (acc_name acc)
                  (acc_inchi acc) (acc_smiles acc) w log)
        as (o & w2 & rest & E & Hp & Hl & _).
      rewrite E in Himp. injection Himp as Ho Hw Hlog. subst o w2 log1.
      apply IH in Hrest as (extra & -> & Hq & Hlen).
      exists (QBiocyc (acc_id acc) :: rest ++ extra)%list.
      split; [now rewrite <- app_assoc|]. split.
      * change (QBiocyc (acc_id acc) :: rest ++ extra)%list
          with ([QBiocyc (acc_id acc)] ++ rest ++ extra)%list.
        rewrite !biocyc_queries_app, (biocyc_queries_pubchem rest Hp), Hq.
        reflexivity.
      * simpl in *. rewrite length_app. lia.
    + apply bind_ret_inv in Hline as (acc' & st2 & Hfield & Hret).
      injection Hret as <- <- ->.
      apply lift_ret_inv in Hfield as [Hfield [= -> ->]].
      apply chem_field_line_id in Hfield.
      apply IH in Hrest as (extra & -> & Hq & Hlen).
      exists extra. rewrite Hfield in Hq, Hlen.
      destruct (unique_id_of l); auto.
Qed.

(** X5: when [extract_chems] returns, the database has been asked once
    for every record that a terminator closes, in the order of the file
    and with the id of the record ([None] for a record without id), and
    all queries together are at most seven for each such record. *)
Theorem extract_chems_database_queries (lines : list string) (w w' : World)
  (log : list query) (chems : dict pyval ChemValues) :
  extract_chems services chem_links lines (w, []) = (Ret chems, (w', log)) ->
  biocyc_queries log = map QBiocyc (record_ids lines PNone)
  /\ length log <= 7 * length (record_ids lines PNone).
Proof.
  intro H. apply extract_chems_loop_log in H as (extra & -> & Hq & Hlen).
  simpl in *. auto.
Qed.

Lemma extract_chems_loop_open (lines : list string) :
  forall chems acc st,
    Forall (fun l => PyStr.startswith l "//" = false) lines ->
    exists o,
      extract_chems_loop services chem_links lines chems acc st = (o, st)
      /\ (o = Ret chems \/ o = Raise).
Proof.
  induction lines as [|l lines IH]; simpl; intros chems acc st Hopen.
  - exists (Ret chems). auto.
  - inversion Hopen as [|? ? Hl Hrest]; subst.
    destruct (String.eqb l ""); [exists (Ret chems); auto|].
    unfold extract_chems_line. rewrite Hl.
    unfold bind, lift, ret.
    destruct (chem_field_line acc l) as [acc'|]; [|exists Raise; auto].
    simpl. now apply IH.
Qed.

(** X6: a file in which no line starts with [//] gives the empty table,
    or an exception, and no service is called: nothing is resolved
    before a record is closed. *)
Theorem extract_chems_without_terminator (lines : list string)
  (st : World * list query) :
  Forall (fun l => PyStr.startswith l "//" = false) lines ->
  snd (extract_chems services chem_links lines st) = st
  /\ (fst (extract_chems services chem_links lines st) = Ret []
      \/ fst (extract_chems services chem_links lines st) = Raise).
Proof.
  intro Hopen. unfold extract_chems.
  destruct (extract_chems_loop_open lines [] chem_acc_reset st Hopen)
    as (o & -> & Ho).
  simpl. auto.
Qed.

Lemma extract_chems_loop_returns (lines : list string) :
  attributes_readable services ->
  Forall newline_ended lines ->
  forall chems acc st,
    exists out st',
      extract_chems_loop services chem_links lines chems acc st = (Ret out, st').
Proof.
  intros Hread Hlines.
  induction Hlines as [|l lines Hl _ IH]; simpl; intros chems acc st.
  - unfold ret. eauto.
  - destruct (String.eqb l ""); [unfold ret; eauto|].
    unfold extract_chems_line.
    destruct (PyStr.startswith l "//").
    + destruct st as [w log].
      destruct (impute_chem_run services chem_links (acc_id acc) (acc_name acc)
                  (acc_inchi acc) (acc_smiles acc) w log)
        as (o & w2 & rest & E & _ & _ & Hret).
      destruct (Hret Hread) as (values & ->).
      unfold bind at 1 2. rewrite E. unfold ret. simpl. apply IH.
    + destruct (chem_field_line_returns acc l Hl) as (acc' & E).
      rewrite E. unfold bind, lift, ret. simpl. apply IH.
Qed.

(** X8: on a file whose lines all end with a newline, [extract_chems]
    returns a table whenever reading [name] and [inchi] of the objects
    found in the database does not raise: no line of such a file is a
    parse error, and no failure of a call is passed on. *)
Theorem extract_chems_returns (lines : list string) (st : World * list query) :
  attributes_readable services ->
  Forall newline_ended lines ->
  exists chems st',
    extract_chems services chem_links lines st = (Ret chems, st').
Proof.
  intros Hread Hlines. now apply extract_chems_loop_returns.
Qed.

End ParserRuns.

(** ** The Reaction Resolver and its parser *)

Lemma rxn_field_line_sides (acc : RxnAcc) (line : string) (acc' : RxnAcc) :
  rxn_field_line acc line = Ret acc' ->
  racc_left acc' = (racc_left acc ++ side_id "LEFT" line)%list
  /\ racc_right acc' = (racc_right acc ++ side_id "RIGHT" line)%list.
Proof.
  unfold rxn_field_line, side_id, rxn_entry_type, getitem.
  set (t := PyStr.strip (hd "" (PyStr.split " - " line))).
  destruct (String.eqb t "UNIQUE-ID") eqn:E1.
  { apply String.eqb_eq in E1. rewrite E1. simpl String.eqb. cbv iota.
    destruct (nth_error _ 1); [|discriminate].
    intros [= <-]. simpl. now rewrite !app_nil_r. }
  destruct (String.eqb t "LEFT") eqn:E2.
  { apply String.eqb_eq in E2. rewrite E2. simpl String.eqb. cbv iota.
    destruct (nth_error _ 1); [|discriminate].
    intros [= <-]. simpl. now rewrite app_nil_r. }
  destruct (String.eqb t "RIGHT") eqn:E3.
  { destruct (nth_error _ 1); [|discriminate].
    intros [= <-]. simpl. now rewrite app_nil_r. }
  destruct (String.eqb t "REACTION-DIRECTION");
    [destruct (nth_error _ 1); [|discriminate]|];
    intros [= <-]; simpl; now rewrite !app_nil_r.
Qed.

Lemma fold_rxn_fields_sides (body : list string) : forall acc acc',
  fold_lines rxn_field_line acc body = Ret acc' ->
  racc_left acc' = (racc_left acc ++ side_ids "LEFT" body)%list
  /\ racc_right acc' = (racc_right acc ++ side_ids "RIGHT" body)%list.
Proof.
  induction body as [|l body IH]; simpl; intros acc acc' H.
  - injection H as <-. now rewrite !app_nil_r.
  - destruct (rxn_field_line acc l) as [acc1|] eqn:E; [|discriminate].
    simpl in H. apply IH in H as [Hl Hr].
    apply rxn_field_line_sides in E as [El Er].
    rewrite Hl, Hr, El, Er, <- !app_assoc. now split.
Qed.

Lemma extract_rxns_loop_fields chems (body tail : list string) :
  forall rxns acc acc',
    record_body body ->
    fold_lines rxn_field_line acc body = Ret acc' ->
    extract_rxns_loop chems (body ++ tail) rxns acc
    = extract_rxns_loop chems tail rxns acc'.
Proof.
  induction body as [|l body IH]; simpl; intros rxns acc acc' Hbody H.
  - now injection H as <-.
  - inversion Hbody as [|? ? (Hne & Hterm) Hrest]; subst.
    apply String.eqb_neq in Hne. rewrite Hne.
    unfold extract_rxns_line. rewrite Hterm.
    destruct (rxn_field_line acc l) as [acc1|]; [|discriminate].
    simpl in *. now apply IH.
Qed.

(** X9: a reaction record lists its participants in the order of its
    [LEFT] and [RIGHT] lines, each as often as it is named; the stored
    names are those of the resolved chemicals, in the same order, with
    the raw id for a chemical that is not in the table. *)
Theorem reaction_sides_in_order (chems : dict pyval ChemValues)
  (body : list string) (term : string) (acc : RxnAcc) :
  record_body body ->
  PyStr.startswith term "//" = true ->
  fold_lines rxn_field_line rxn_acc_reset body = Ret acc ->
  extract_rxns chems (body ++ [term])
  = Ret [(racc_id acc,
          {| reactant_names := display_names chems (side_ids "LEFT" body);
             product_names := display_names chems (side_ids "RIGHT" body);
             reactant_ids := side_ids "LEFT" body;
             product_ids := side_ids "RIGHT" body;
             direction := racc_direction acc |})].
Proof.
  intros Hbody Hterm Hacc. unfold extract_rxns.
  rewrite (extract_rxns_loop_fields _ _ _ _ _ _ Hbody Hacc).
  apply fold_rxn_fields_sides in Hacc as [Hl Hr]. simpl in Hl, Hr.
  simpl. rewrite (startswith_nonempty term "//" Hterm) by discriminate.
  unfold extract_rxns_line. rewrite Hterm. simpl.
  unfold impute_rxn. now rewrite Hl, Hr.
Qed.

Lemma length_append (a b : string) :
  String.length (a ++ b) = String.length a + String.length b.
Proof. induction a as [|c a IH]; simpl; [reflexivity|now rewrite IH]. Qed.

Lemma slice_from_append (a b : string) :
  PyStr.slice_from (String.length a) (a ++ b) = b.
Proof. induction a as [|c a IH]; simpl; [now destruct b|exact IH]. Qed.

Lemma endswith_append (a b c : string) :
  String.length b = String.length c ->
  PyStr.endswith (a ++ b) c = String.eqb b c.
Proof.
  intro Hlen. unfold PyStr.endswith.
  rewrite length_append, <- Hlen, Nat.add_sub, slice_from_append.
  replace (String.length b <=? String.length a + String.length b)%nat
    with true by (symmetry; apply Nat.leb_le; lia).
  reflexivity.
Qed.

Lemma occurs_append_r (c : ascii) (a b : string) :
  occurs c b = true -> occurs c (a ++ b) = true.
Proof.
  intro H. induction a as [|d a IH]; simpl; [exact H|].
  rewrite IH. apply orb_true_r.
Qed.

Lemma not_reversible (a b : string) :
  occurs "-"%char b = true -> String.eqb (a ++ b) "REVERSIBLE" = false.
Proof.
  intro H. apply String.eqb_neq. intro Heq.
  pose proof (occurs_append_r "-"%char a b H) as Ho.
  rewrite Heq in Ho. discriminate.
Qed.

(** X10: a direction that ends with [LEFT-TO-RIGHT], whatever precedes
    it, is stored as 1 and written as [->]; one that ends with
    [RIGHT-TO-LEFT] is stored as 2 and written as [<-]. *)
Theorem direction_code_suffix (prefix : string) :
  direction_code (prefix ++ "LEFT-TO-RIGHT") = 1%Z
  /\ arrow (Some (direction_code (prefix ++ "LEFT-TO-RIGHT"))) = " -> "
  /\ direction_code (prefix ++ "RIGHT-TO-LEFT") = 2%Z
  /\ arrow (Some (direction_code (prefix ++ "RIGHT-TO-LEFT"))) = " <- ".
Proof.
  assert (H1 : direction_code (prefix ++ "LEFT-TO-RIGHT") = 1%Z).
  { unfold direction_code.
    rewrite not_reversible by reflexivity.
    now rewrite endswith_append by reflexivity. }
  assert (H2 : direction_code (prefix ++ "RIGHT-TO-LEFT") = 2%Z).
  { unfold direction_code.
    rewrite not_reversible by reflexivity.
    now rewrite !endswith_append by reflexivity. }
  rewrite H1, H2. repeat split.
Qed.

(** X11: a direction that is neither [REVERSIBLE] nor ends with
    [LEFT-TO-RIGHT], and likewise a record without direction, is
    written with the arrow [<-], as a right-to-left reaction is. *)
Theorem other_directions_written_right_to_left (dir : string) :
  dir <> "REVERSIBLE" ->
  PyStr.endswith dir "LEFT-TO-RIGHT" = false ->
  arrow (Some (direction_code dir)) = " <- "
  /\ arrow (racc_direction rxn_acc_reset) = " <- ".
Proof.
  intros Hrev Hltr. split; [|reflexivity].
  unfold direction_code. apply String.eqb_neq in Hrev. rewrite Hrev, Hltr.
  now destruct (PyStr.endswith dir "RIGHT-TO-LEFT").
Qed.

(** ** The Output Writer: when it succeeds *)

Lemma in_keys_dict_get {K V : Type} `{Key K} (d : dict K V) (k : K) :
  In k (dict_keys d) -> exists v, dict_get d k = Some v /\ In (k, v) d.
Proof.
  induction d as [|[k' v'] d IH]; simpl; [contradiction|].
  intro Hin. destruct (key_eqb k' k) eqn:E.
  - apply key_eqb_spec in E. subst k'. eauto.
  - destruct Hin as [->|Hin]; [rewrite key_eqb_refl in E; discriminate|].
    destruct (IH Hin) as (v & Hv & Hd). eauto.
Qed.

Lemma dict_get_in {K V : Type} `{Key K} (d : dict K V) (k : K) (v : V) :
  dict_get d k = Some v -> In (k, v) d.
Proof.
  induction d as [|[k' v'] d IH]; simpl; [discriminate|].
  destruct (key_eqb k' k) eqn:E.
  - apply key_eqb_spec in E. subst k'. intros [= ->]. now left.
  - intro Hv. right. auto.
Qed.

(** Assigning a value that has a property to a table whose values all
    have it keeps the property. *)
Lemma dict_set_values {K V : Type} `{Key K} (P : V -> Prop) (d : dict K V)
  (k : K) (v : V) :
  Forall (fun kv => P (snd kv)) d -> P v ->
  Forall (fun kv => P (snd kv)) (dict_set d k v).
Proof.
  intros Hd Hv. induction Hd as [|[k' v'] d Hv' Hd IH]; simpl.
  - now repeat constructor.
  - destruct (key_eqb k' k); constructor; auto.
Qed.

Lemma chem_row_returns (i n : string) (a b : pyval) :
  exists row,
    chem_row (PStr i) {| chem_name := PStr n; chem_inchi := a; chem_smiles := b |}
    = Ret (PStr row).
Proof.
  unfold chem_row, add_column_if_present, add_column.
  destruct a, b; simpl; eauto.
Qed.

Lemma write_chem_rows_ok (chems : dict pyval ChemValues) (ids : list pyval) :
  (forall id, In id ids ->
     exists i values, id = PStr i /\ dict_get chems id = Some values
                      /\ chem_name values <> PNone) ->
  forall file, exists file',
    write_chem_rows chems ids file = (file', Ret tt)
    /\ length file' = length file + length ids.
Proof.
  induction ids as [|id ids IH]; simpl; intros Hids file.
  - exists file. split; [reflexivity|lia].
  - destruct (Hids id (or_introl eq_refl)) as (i & [n a b] & -> & Hget & Hname).
    rewrite Hget. simpl in Hname.
    destruct n as [|n]; [congruence|].
    destruct (chem_row_returns i n a b) as (row & ->). simpl.
    destruct (IH (fun id' Hin => Hids id' (or_intror Hin)) (file ++ [row])%list)
      as (file' & E & Hlen).
    exists file'. split; [exact E|].
    rewrite Hlen, length_app. simpl. lia.
Qed.

Lemma write_chem_rows_names (chems : dict pyval ChemValues) (ids : list pyval) :
  forall file file',
    write_chem_rows chems ids file = (file', Ret tt) ->
    forall id, In id ids ->
      exists i values, id = PStr i /\ dict_get chems id = Some values
                       /\ chem_name values <> PNone.
Proof.
  induction ids as [|id ids IH]; simpl; intros file file' H id' Hin;
    [contradiction|].
  destruct (dict_get chems id) as [values|] eqn:Hget; [|discriminate].
  destruct (chem_row id values) as [row|] eqn:Erow; [|discriminate].
  destruct Hin as [<-|Hin].
  - unfold chem_row, add_column in Erow.
    destruct id as [|i]; [destruct (chem_name values); discriminate|].
    exists i, values. repeat split; [exact Hget|].
    intro Hn. rewrite Hn in Erow. discriminate.
  - destruct row as [|row]; [discriminate|]. simpl in H.
    exact (IH _ _ H id' Hin).
Qed.

(** X12: the chemicals table is written to the end exactly when every
    key is a string and every name is a string; an absent inchi or
    smiles never stops the writer.  The file then has one line for each
    record after the header. *)
Theorem write_chems_succeeds_iff (chems : dict pyval ChemValues) :
  (snd (write_chems chems) = Ret tt
   <-> forall id, In id (dict_keys chems) ->
         exists i values, id = PStr i /\ dict_get chems id = Some values
                          /\ chem_name values <> PNone)
  /\ (snd (write_chems chems) = Ret tt ->
      length (fst (write_chems chems)) = S (length chems)).
Proof.
  unfold write_chems. split; [split|].
  - intros H id Hin.
    destruct (write_chem_rows chems (dict_keys chems) [chems_header])
      as [file' o] eqn:E.
    simpl in H. subst o.
    exact (write_chem_rows_names _ _ _ _ E id Hin).
  - intro H.
    destruct (write_chem_rows_ok chems (dict_keys chems) H [chems_header])
      as (file' & -> & _). reflexivity.
  - intro H.
    destruct (write_chem_rows chems (dict_keys chems) [chems_header])
      as [file' o] eqn:E.
    simpl in H. subst o.
    pose proof (write_chem_rows_names _ _ _ _ E) as Hnames.
    destruct (write_chem_rows_ok chems (dict_keys chems) Hnames [chems_header])
      as (file'' & E' & Hlen).
    rewrite E in E'. injection E' as <-. simpl.
    rewrite Hlen. unfold dict_keys. now rewrite length_map.
Qed.

Lemma outcome_unit_cases (o : outcome unit) : o = Ret tt \/ o = Raise.
Proof. destruct o as [[]|]; auto. Qed.

Section WriterAfterParser.

Context {World : Type}.
Variable services : Services World.
Variable chem_links : dict string ChemLink.

(** X13: a record of [compounds.dat] that is closed without a
    [UNIQUE-ID] line makes the writer of the chemicals table raise:
    its key [None] cannot start a row. *)
Theorem record_without_id_stops_writer (lines : list string)
  (st st' : World * list query) (chems : dict pyval ChemValues) :
  extract_chems services chem_links lines st = (Ret chems, st') ->
  In PNone (record_ids lines PNone) ->
  snd (write_chems chems) = Raise.
Proof.
  intros Hextract Hnone.
  apply extract_chems_loop_keys in Hextract as [_ Hkeys]; [|constructor].
  assert (Hin : In PNone (dict_keys chems)) by (apply Hkeys; now right).
  destruct (outcome_unit_cases (snd (write_chems chems))) as [Hok|Hr];
    [|exact Hr].
  exfalso. unfold write_chems in Hok.
  destruct (write_chem_rows chems (dict_keys chems) [chems_header])
    as [file' o] eqn:E.
  simpl in Hok. subst o.
  destruct (write_chem_rows_names _ _ _ _ E PNone Hin) as (i & _ & Hi & _).
  discriminate.
Qed.

(** The name of a returned record is a string when no first candidate
    lacks the IUPAC name. *)
Lemma impute_chem_name_filled (id name inchi smiles : pyval) st values st' :
  (forall v ns w cs w' c,
      pcp_get_compounds services v ns w = (Ret cs, w') ->
      getitem cs 0 = Ret c -> iupac_name c <> Ret PNone) ->
  impute_chem services chem_links id name inchi smiles st = (Ret values, st') ->
  chem_name values <> PNone.
Proof.
  intros Hfilled H. unfold impute_chem in H.
  apply bind_ret_inv in H as (compound & s1 & _ & H).
  apply bind_ret_inv in H as (name1 & s2 & _ & H).
  apply bind_ret_inv in H as (inchi1 & s3 & _ & H).
  apply bind_ret_inv in H as (name2 & s4 & Hn & H).
  apply bind_ret_inv in H as (inchi2 & s5 & _ & H).
  apply bind_ret_inv in H as (smiles2 & s6 & _ & H).
  injection H as <- _. simpl.
  unfold pass2_name in Hn. destruct (is_none name1) eqn:E.
  - now apply (pubchem_fallback_filled services) in Hn.
  - injection Hn as <- _. now apply is_none_false.
Qed.

Lemma extract_chems_loop_names (lines : list string) :
  (forall v ns w cs w' c,
      pcp_get_compounds services v ns w = (Ret cs, w') ->
      getitem cs 0 = Ret c -> iupac_name c <> Ret PNone) ->
  forall chems acc st out st',
    extract_chems_loop services chem_links lines chems acc st = (Ret out, st') ->
    Forall (fun kv => chem_name (snd kv) <> PNone) chems ->
    Forall (fun kv => chem_name (snd kv) <> PNone) out.
Proof.
  intro Hfilled.
  induction lines as [|l lines IH]; simpl; intros chems acc st out st' H Hc.
  - now injection H as <- _.
  - destruct (String.eqb l ""); [now injection H as <- _|].
    apply bind_ret_inv in H as ([chems1 acc1] & st1 & Hline & Hrest).
    simpl in Hrest. unfold extract_chems_line in Hline.
    destruct (PyStr.startswith l "//").
    + apply bind_ret_inv in Hline as (values & st2 & Himp & Hret).
      injection Hret as <- <- _.
      apply (IH _ _ _ _ _ Hrest).
      apply (dict_set_values (fun v => chem_name v <> PNone)); [exact Hc|].
      exact (impute_chem_name_filled _ _ _ _ _ _ _ Hfilled Himp).
    + apply bind_ret_inv in Hline as (acc' & st2 & _ & Hret).
      injection Hret as <- <- _.
      exact (IH _ _ _ _ _ Hrest Hc).
Qed.

(** X14: when no first candidate of a structure search lacks the IUPAC
    name and every closed record of [compounds.dat] has an id, the
    table that [extract_chems] returns is written to the end: a header
    and one row for each record. *)
Theorem extract_then_write_succeeds (lines : list string)
  (st st' : World * list query) (chems : dict pyval ChemValues) :
  (forall v ns w cs w' c,
      pcp_get_compounds services v ns w = (Ret cs, w') ->
      getitem cs 0 = Ret c -> iupac_name c <> Ret PNone) ->
  ~ In PNone (record_ids lines PNone) ->
  extract_chems services chem_links lines st = (Ret chems, st') ->
  snd (write_chems chems) = Ret tt
  /\ length (fst (write_chems chems)) = S (length chems).
Proof.
  intros Hfilled Hids Hextract.
  pose proof (extract_chems_loop_names lines Hfilled _ _ _ _ _ Hextract
                (Forall_nil _)) as Hnames.
  apply extract_chems_loop_keys in Hextract as [_ Hkeys]; [|constructor].
  assert (Hok : forall id, In id (dict_keys chems) ->
            exists i values, id = PStr i /\ dict_get chems id = Some values
                             /\ chem_name values <> PNone).
  { intros id Hin.
    destruct (in_keys_dict_get chems id Hin) as (values & Hget & Hd).
    destruct id as [|i].
    - exfalso. apply Hids. apply Hkeys in Hin as [[]|Hin]. exact Hin.
    - exists i, values. repeat split; [exact Hget|].
      exact (proj1 (Forall_forall _ _) Hnames _ Hd). }
  unfold write_chems.
  destruct (write_chem_rows_ok chems (dict_keys chems) Hok [chems_header])
    as (file' & -> & Hlen).
  simpl. split; [reflexivity|].
  rewrite Hlen. unfold dict_keys. now rewrite length_map.
Qed.

End WriterAfterParser.

(** X15: a row without inchi and a row without smiles look the same:
    the one structure that is present lands in the third column either
    way. *)
Theorem chem_row_columns_shift (id name x : pyval) :
  x <> PNone ->
  chem_row id {| chem_name := name; chem_inchi := PNone; chem_smiles := x |}
  = chem_row id {| chem_name := name; chem_inchi := x; chem_smiles := PNone |}.
Proof.
  intro Hx. unfold chem_row, add_column_if_present. simpl.
  destruct x as [|s]; [congruence|]. simpl.
  destruct (add_column id name) as [line|]; simpl; [|reflexivity].
  now destruct (add_column line (PStr s)).
Qed.

(** ** [write_data] and [extract_data] *)

Lemma write_chems_length (chems : dict pyval ChemValues) :
  snd (write_chems chems) = Ret tt ->
  length (fst (write_chems chems)) = S (length chems).
Proof.
  unfold write_chems. intro H.
  destruct (write_chem_rows chems (dict_keys chems) [chems_header])
    as [file' o] eqn:E.
  simpl in H. subst o.
  pose proof (write_chem_rows_names _ _ _ _ E) as Hnames.
  destruct (write_chem_rows_ok chems (dict_keys chems) Hnames [chems_header])
    as (file'' & E' & Hlen).
  rewrite E in E'. injection E' as <-. simpl.
  rewrite Hlen. unfold dict_keys. now rewrite length_map.
Qed.

Lemma strings_of_returns (items : list pyval) :
  Forall (fun v => v <> PNone) items -> exists l, strings_of items = Ret l.
Proof.
  induction 1 as [|v items Hv _ (l & IH)]; simpl; [eauto|].
  destruct v as [|s]; [congruence|]. rewrite IH. simpl. eauto.
Qed.

(** The names that the resolver puts in a reaction are strings when the
    names of the chemicals are. *)
Lemma display_names_strings (chems : dict pyval ChemValues) (ids : list string) :
  Forall (fun kv => chem_name (snd kv) <> PNone) chems ->
  Forall (fun v => v <> PNone) (display_names chems ids).
Proof.
  intro Hc. unfold display_names. apply Forall_map, Forall_forall.
  intros cid _.
  destruct (dict_get chems (PStr cid)) as [values|] eqn:E; [|discriminate].
  apply dict_get_in in E.
  exact (proj1 (Forall_forall _ _) Hc _ E).
Qed.

Definition names_are_strings (values : RxnValues) : Prop :=
  Forall (fun v => v <> PNone) (reactant_names values)
  /\ Forall (fun v => v <> PNone) (product_names values).

Lemma rxn_row_returns (values : RxnValues) :
  names_are_strings values -> exists row, rxn_row values = Ret row.
Proof.
  intros [Hl Hr]. unfold rxn_row, py_join.
  destruct (strings_of_returns _ Hl) as (l & ->).
  destruct (strings_of_returns _ Hr) as (r & ->).
  simpl. eauto.
Qed.

Lemma extract_rxns_loop_names (chems : dict pyval ChemValues)
  (lines : list string) :
  Forall (fun kv => chem_name (snd kv) <> PNone) chems ->
  forall rxns acc out,
    extract_rxns_loop chems lines rxns acc = Ret out ->
    Forall (fun kv => names_are_strings (snd kv)) rxns ->
    Forall (fun kv => names_are_strings (snd kv)) out.
Proof.
  intro Hc.
  induction lines as [|l lines IH]; simpl; intros rxns acc out H Hr.
  - now injection H as <-.
  - destruct (String.eqb l ""); [now injection H as <-|].
    unfold extract_rxns_line in H.
    destruct (PyStr.startswith l "//").
    + simpl in H. apply (IH _ _ _ H).
      apply (dict_set_values names_are_strings); [exact Hr|].
      split; now apply display_names_strings.
    + destruct (rxn_field_line acc l) as [acc'|]; [|discriminate].
      simpl in H. exact (IH _ _ _ H Hr).
Qed.

Lemma write_rxn_rows_ok (rxns : dict pyval RxnValues) (ids : list pyval) :
  Forall (fun kv => names_are_strings (snd kv)) rxns ->
  (forall id, In id ids -> In id (dict_keys rxns)) ->
  forall file, exists file',
    write_rxn_rows rxns ids file = (file', Ret tt)
    /\ length file' = length file + length ids.
Proof.
  intro Hr.
  induction ids as [|id ids IH]; simpl; intros Hids file.
  - exists file. split; [reflexivity|lia].
  - destruct (in_keys_dict_get rxns id (Hids id (or_introl eq_refl)))
      as (values & -> & Hd).
    destruct (rxn_row_returns values) as (row & ->).
    { exact (proj1 (Forall_forall _ _) Hr _ Hd). }
    destruct (IH (fun id' Hin => Hids id' (or_intror Hin)) (file ++ [row])%list)
      as (file' & E & Hlen).
    exists file'. split; [exact E|].
    rewrite Hlen, length_app. simpl. lia.
Qed.

Lemma NoDup_keys_unique {K V : Type} (d : dict K V) (k : K) (v1 v2 : V) :
  NoDup (dict_keys d) -> In (k, v1) d -> In (k, v2) d -> v1 = v2.
Proof.
  induction d as [|[k' v'] d IH]; simpl; intros Hnd H1 H2; [contradiction|].
  inversion Hnd as [|? ? Hnotin Hrest]; subst.
  assert (Hkeys : forall v, In (k, v) d -> In k (dict_keys d)).
  { intros v Hv. unfold dict_keys. now apply (in_map fst) in Hv. }
  destruct H1 as [E1|H1], H2 as [E2|H2].
  - congruence.
  - injection E1 as -> _. now apply Hkeys in H2.
  - injection E2 as -> _. now apply Hkeys in H1.
  - now apply IH.
Qed.

Lemma chems_written_names (chems : dict pyval ChemValues) :
  NoDup (dict_keys chems) ->
  snd (write_chems chems) = Ret tt ->
  Forall (fun kv => chem_name (snd kv) <> PNone) chems.
Proof.
  intros Hnd Hok. unfold write_chems in Hok.
  destruct (write_chem_rows chems (dict_keys chems) [chems_header])
    as [file' o] eqn:E.
  simpl in Hok. subst o.
  apply Forall_forall. intros [k v] Hin.
  destruct (write_chem_rows_names _ _ _ _ E k) as (i & values & _ & Hget & Hn).
  { unfold dict_keys. now apply (in_map fst) in Hin. }
  simpl. apply dict_get_in in Hget.
  now rewrite <- (NoDup_keys_unique chems k values v Hnd Hget Hin).
Qed.

Section ExtractorProperties.

Context {World : Type}.
Variable services : Services World.

(** X16: [extract_data] ends in one of three ways: with an exception
    before any file is opened; with an exception while the chemicals
    table is written, and then [reactions.txt] is not opened; or
    normally with both files complete, a header and one row for each
    record.  The reactions table is never left half written: after the
    chemicals table is complete, every name of a reaction is a string. *)
Theorem extract_data_outcomes (chem_links : dict string ChemLink)
  (compounds reactions : list string) (st : World * list query)
  (out : Outputs) (o : outcome unit) :
  fst (extract_data services chem_links compounds reactions st) = (out, o) ->
  (o = Raise /\ reactions_txt out = None)
  \/ (o = Ret tt
      /\ exists chems rxns cfile rfile,
           fst (extract_chems services chem_links compounds st) = Ret chems
           /\ extract_rxns chems reactions = Ret rxns
           /\ out = {| chemicals_txt := Some cfile; reactions_txt := Some rfile |}
           /\ length cfile = S (length chems)
           /\ length rfile = S (length rxns)).
Proof.
  unfold extract_data.
  destruct (extract_chems services chem_links compounds st)
    as [[chems|] st'] eqn:Ec; [|intros [= <- <-]; now left].
  destruct (extract_rxns chems reactions) as [rxns|] eqn:Er;
    [|intros [= <- <-]; now left].
  simpl fst. unfold write_data.
  destruct (write_chems chems) as [cfile oc] eqn:Ew.
  destruct oc as [[]|]; [|intros [= <- <-]; now left].
  assert (Hnd : NoDup (dict_keys chems)).
  { apply extract_chems_loop_keys in Ec as [Hnd _]; [exact Hnd|constructor]. }
  assert (Hok : snd (write_chems chems) = Ret tt) by now rewrite Ew.
  pose proof (chems_written_names chems Hnd Hok) as Hnames.
  pose proof (extract_rxns_loop_names chems reactions Hnames _ _ _ Er
                (Forall_nil _)) as Hrn.
  unfold write_rxns.
  destruct (write_rxn_rows_ok rxns (dict_keys rxns) Hrn (fun _ H => H)
              [rxns_header]) as (rfile & -> & Hlen).
  intros [= <- <-]. right. split; [reflexivity|].
  exists chems, rxns, cfile, rfile.
  split; [reflexivity|]. split; [exact Er|]. split; [reflexivity|]. split.
  - pose proof (write_chems_length chems Hok) as Hc.
    now rewrite Ew in Hc.
  - rewrite Hlen. unfold dict_keys. now rewrite length_map.
Qed.

End ExtractorProperties.

(** ** The Link Table Loader: malformed lines, comments, invariants *)

Lemma getitem_short {A : Type} (l : list A) (i : nat) :
  length l <= i -> getitem l i = Raise.
Proof.
  intro H. unfold getitem. now rewrite (proj2 (nth_error_None l i) H).
Qed.

Lemma fold_lines_raises {T : Type} (step : T -> string -> outcome T)
  (pre post : list string) (line : string) (table : T) :
  (forall t, step t line = Raise) ->
  fold_lines step table (pre ++ line :: post) = Raise.
Proof.
  intro Hline. rewrite fold_lines_app.
  destruct (fold_lines step table pre) as [t|]; simpl; [|reflexivity].
  now rewrite Hline.
Qed.

(** X17: a line of [compound-links.dat] that is not a comment and has
    fewer than four columns makes [load_chem_links] raise, wherever it
    stands in the file: no table is returned. *)
Theorem load_chem_links_short_line (pre post : list string) (line : string) :
  PyStr.startswith line "#" = false ->
  length (PyStr.split PyStr.TAB line) < 4 ->
  load_chem_links (pre ++ line :: post) = Raise.
Proof.
  intros Hdata Hshort. unfold load_chem_links.
  apply fold_lines_raises. intro t.
  unfold load_chem_links_line. rewrite Hdata.
  rewrite (getitem_short _ 3) by lia.
  destruct (getitem _ 0); simpl; [|reflexivity].
  destruct (getitem _ 1); simpl; [|reflexivity].
  now destruct (getitem _ 2).
Qed.

(** X18: a line of [reaction-links.dat] that is not a comment and has
    no tab makes [load_rxn_links] raise, wherever it stands in the
    file; an empty line is such a line. *)
Theorem load_rxn_links_one_column (pre post : list string) (line : string) :
  PyStr.startswith line "#" = false ->
  length (PyStr.split PyStr.TAB line) < 2 ->
  load_rxn_links (pre ++ line :: post) = Raise.
Proof.
  intros Hdata Hshort. unfold load_rxn_links.
  apply fold_lines_raises. intro t.
  unfold load_rxn_links_line. rewrite Hdata.
  now rewrite (getitem_short _ 1) by lia.
Qed.

Lemma fold_lines_values {V : Type} (P : V -> Prop)
  (step : dict string V -> string -> outcome (dict string V)) :
  (forall t l t', step t l = Ret t' ->
                  Forall (fun kv => P (snd kv)) t ->
                  Forall (fun kv => P (snd kv)) t') ->
  forall lines t t',
    fold_lines step t lines = Ret t' ->
    Forall (fun kv => P (snd kv)) t ->
    Forall (fun kv => P (snd kv)) t'.
Proof.
  intro Hstep. induction lines as [|l lines IH]; simpl; intros t t' H Ht.
  - now injection H as <-.
  - destruct (step t l) as [t1|] eqn:E; [|discriminate].
    simpl in H. exact (IH _ _ H (Hstep _ _ _ E Ht)).
Qed.

(** X19: every name in the table that [load_chem_links] returns is
    free of the characters [&], [;], [[] and []]. *)
Theorem load_chem_links_names_clean (lines : list string)
  (chem_links : dict string ChemLink) (id : string) (entry : ChemLink)
  (c : ascii) :
  load_chem_links lines = Ret chem_links ->
  dict_get chem_links id = Some entry ->
  In c exclude_chars ->
  occurs c (link_name entry) = false.
Proof.
  intros Hload Hget Hc. unfold load_chem_links in Hload.
  apply dict_get_in in Hget.
  assert (Hall : Forall (fun kv => occurs c (link_name (snd kv)) = false)
                   chem_links).
  { apply (fold_lines_values (fun e => occurs c (link_name e) = false)
             load_chem_links_line) with (lines := lines) (t := []);
      [|exact Hload|constructor].
    intros t l t' Hstep Ht. unfold load_chem_links_line in Hstep.
    destruct (PyStr.startswith l "#"); [now injection Hstep as <-|].
    destruct (getitem _ 0); simpl in Hstep; [|discriminate].
    destruct (getitem _ 1); simpl in Hstep; [|discriminate].
    destruct (getitem _ 2); simpl in Hstep; [|discriminate].
    destruct (getitem _ 3); simpl in Hstep; [|discriminate].
    injection Hstep as <-.
    apply (dict_set_values (fun e => occurs c (link_name e) = false));
      [exact Ht|].
    simpl. now apply normalize_name_excludes. }
  exact (proj1 (Forall_forall _ _) Hall _ Hget).
Qed.

(** X20: no reaction is stored with an empty list of codes: every list
    in the table that [load_rxn_links] returns has an element, be it the
    empty code. *)
Theorem load_rxn_links_codes_nonempty (lines : list string)
  (rxn_links : dict string (list string)) (id : string) (ecs : list string) :
  load_rxn_links lines = Ret rxn_links ->
  dict_get rxn_links id = Some ecs ->
  ecs <> [].
Proof.
  intros Hload Hget. unfold load_rxn_links in Hload.
  apply dict_get_in in Hget.
  assert (Hall : Forall (fun kv => snd kv <> []) rxn_links).
  { apply (fold_lines_values (fun ecs : list string => ecs <> [])
             load_rxn_links_line) with (lines := lines) (t := []);
      [|exact Hload|constructor].
    intros t l t' Hstep Ht. unfold load_rxn_links_line, getitem in Hstep.
    destruct (PyStr.startswith l "#"); [now injection Hstep as <-|].
    destruct (PyStr.split PyStr.TAB l) as [|e0 [|e1 entries]];
      cbn [nth_error obind] in Hstep; try discriminate.
    destruct (PyStr.isspace e1); [now injection Hstep as <-|].
    injection Hstep as <-.
    apply (dict_set_values (fun ecs : list string => ecs <> []));
      [exact Ht|discriminate]. }
  exact (proj1 (Forall_forall _ _) Hall _ Hget).
Qed.



(** ** Name normalization: what it guarantees *)

Lemma length_remove_char (c : ascii) (s : string) :
  String.length (PyStr.remove_char c s) <= String.length s.
Proof.
  induction s as [|d s IH]; simpl; [lia|].
  destruct (Ascii.eqb d c); simpl; lia.
Qed.

Lemma sub_tags_go_no_tag (s : string) :
  occurs "<"%char s = false -> PyStr.sub_tags_go 0 s = s.
Proof.
  induction s as [|c s IH]; simpl; [reflexivity|].
  intro H. apply orb_false_iff in H as [Hc Hs].
  unfold PyStr.is_lt. rewrite Hc. now rewrite IH.
Qed.

(** X22: a normalized name contains none of the characters [&], [;],
    [[], []] and is never longer than the name it was made from. *)
Theorem normalize_name_clean (s : string) :
  (forall c, In c exclude_chars -> occurs c (normalize_name s) = false)
  /\ String.length (normalize_name s) <= String.length s.
Proof.
  split; [intros c Hc; now apply normalize_name_excludes|].
  unfold normalize_name, PyStr.sub_tags, remove_chars, exclude_chars. simpl.
  set (t := PyStr.remove_char "]" _).
  pose proof (length_drop_article (PyStr.sub_tags_go 0 t)) as H1.
  pose proof (length_sub_tags_go t 0) as H2.
  assert (H3 : String.length t <= String.length s).
  { subst t.
    repeat (etransitivity; [apply length_remove_char|]). reflexivity. }
  lia.
Qed.

(** X23: a name without the four characters, without [<] and without a
    leading article is left as it is. *)
Theorem normalize_name_plain (s : string) :
  (forall c, In c exclude_chars -> occurs c s = false) ->
  occurs "<"%char s = false ->
  PyStr.startswith s "a " = false ->
  PyStr.startswith s "an " = false ->
  normalize_name s = s.
Proof.
  intros Hc Hlt Ha Han.
  unfold normalize_name, PyStr.sub_tags, remove_chars, exclude_chars.
  simpl fold_left.
  rewrite (remove_char_absent "&") by (apply Hc; simpl; auto).
  rewrite (remove_char_absent ";") by (apply Hc; simpl; auto).
  rewrite (remove_char_absent "[") by (apply Hc; simpl; auto).
  rewrite (remove_char_absent "]") by (apply Hc; simpl; auto).
  rewrite (sub_tags_go_no_tag s Hlt).
  unfold drop_article. now rewrite Ha, Han.
Qed.

(** ** The constructor and the run *)

Section RunProperties.

Context {World : Type}.
Variable services : Services World.

(** X24: the table of [reaction-links.dat] is loaded and never read:
    two files that both load lead to the same run, and a file that does
    not load ends the run before any query is made or file opened. *)
Theorem run_ignores_reaction_links
  (chem_links_lines links1 links2 compounds reactions : list string)
  (st : World * list query) :
  (load_rxn_links links1 <> Raise -> load_rxn_links links2 <> Raise ->
   run services chem_links_lines links1 compounds reactions st
   = run services chem_links_lines links2 compounds reactions st)
  /\ (load_rxn_links links1 = Raise ->
      run services chem_links_lines links1 compounds reactions st
      = ((no_outputs, Raise), st)).
Proof.
  unfold run, init. split.
  - intros H1 H2.
    destruct (load_chem_links chem_links_lines); simpl; [|reflexivity].
    destruct (load_rxn_links links1); [|congruence].
    destruct (load_rxn_links links2); [|congruence].
    reflexivity.
  - intros ->. now destruct (load_chem_links chem_links_lines).
Qed.

End RunProperties.

(** ** The further properties on sample inputs *)

(** X3 when PubChem finds water by the name. *)
Lemma pass2_inchi_order_witness :
  pass2_inchi services_up (PStr "water") PNone (PStr "O") (tt, [])
  = (Ret (PStr "InChI=1S/H2O/h1H2"), (tt, [QPubChem (PStr "water") ByName])).
Proof.
  exact (proj1 (pass2_inchi_order services_up (PStr "water") (PStr "O") tt [])
           [water] tt water (PStr "InChI=1S/H2O/h1H2") eq_refl eq_refl eq_refl).
Defined.

(** X4 with both services down and an empty link table. *)
Lemma impute_chem_all_sources_fail_witness :
  result_of (impute_chem services_down [] (PStr "CPD-1") PNone PNone PNone) tt
  = Ret {| chem_name := PStr ""; chem_inchi := PStr ""; chem_smiles := PStr "" |}
  /\ length (queries_of (impute_chem services_down []
                           (PStr "CPD-1") PNone PNone PNone) tt) = 7.
Proof.
  destruct (impute_chem_all_sources_fail services_down [] (PStr "CPD-1") tt)
    as [Hr Hq].
  - reflexivity.
  - intro w0. left. reflexivity.
  - intros v ns w0. left. reflexivity.
  - split; [exact Hr|]. now rewrite Hq.
Defined.

(** X5 on the file of two closed records and one open. *)
Lemma extract_chems_database_queries_witness :
  biocyc_queries (queries_of (extract_chems services_up links_foo compounds_two) tt)
  = [QBiocyc (PStr "CPD-1"); QBiocyc (PStr "CPD-2")]
  /\ length (queries_of (extract_chems services_up links_foo compounds_two) tt)
     <= 14.
Proof.
  exact (extract_chems_database_queries services_up links_foo compounds_two
           tt tt (queries_of (extract_chems services_up links_foo compounds_two) tt)
           chems_two eq_refl).
Defined.

(** X6 on the file of one open record. *)
Lemma extract_chems_without_terminator_witness :
  Forall (fun l => PyStr.startswith l "//" = false) compounds_dangling
  /\ extract_chems services_up links_foo compounds_dangling (tt, [])
     = (Ret [], (tt, [])).
Proof.
  assert (H : Forall (fun l => PyStr.startswith l "//" = false)
                compounds_dangling) by (repeat constructor).
  split; [exact H|].
  pose proof (extract_chems_without_terminator services_up links_foo
                compounds_dangling (tt, []) H) as [Hs _].
  reflexivity.
Defined.

(** X7 on a record with a standard inchi followed by a non-standard one. *)
Lemma last_inchi_line_wins_witness :
  inchi_value (line "NON-STANDARD-INCHI - B") = Some "B"
  /\ acc_inchi acc_two_inchis = PStr "B".
Proof.
  split; [reflexivity|].
  apply (last_inchi_line_wins [line "INCHI - A"] [line "SMILES - O"]
           (line "NON-STANDARD-INCHI - B") "B" chem_acc_reset acc_two_inchis).
  - reflexivity.
  - repeat constructor.
  - reflexivity.
Defined.

Lemma line_newline_ended (text : string) : newline_ended (line text).
Proof. now exists text. Qed.

(** X8 on the file of two closed records and one open. *)
Lemma extract_chems_returns_witness :
  attributes_readable services_up
  /\ Forall newline_ended compounds_two
  /\ exists chems st',
       extract_chems services_up links_foo compounds_two (tt, []) = (Ret chems, st').
Proof.
  assert (H : Forall newline_ended compounds_two)
    by (repeat constructor; apply line_newline_ended).
  split; [exact services_up_readable|]. split; [exact H|].
  exact (extract_chems_returns services_up links_foo compounds_two (tt, [])
           services_up_readable H).
Defined.

(** X9 on a reaction with two reactants and one product. *)
Lemma reaction_sides_in_order_witness :
  fold_lines rxn_field_line rxn_acc_reset reaction_body = Ret racc_rxn1
  /\ extract_rxns chems_two reactions_dat
     = Ret [(PStr "RXN-1",
             {| reactant_names := [PStr "salt"; PStr "CPD-9"];
                product_names := [PStr "bar"];
                reactant_ids := ["CPD-1"; "CPD-9"];
                product_ids := ["CPD-2"];
                direction := Some 1%Z |})].
Proof.
  split; [reflexivity|].
  apply (reaction_sides_in_order chems_two reaction_body (line "//") racc_rxn1).
  - repeat constructor; discriminate.
  - reflexivity.
  - reflexivity.
Defined.

(** X11 for a direction that the parser does not know. *)
Lemma other_directions_written_right_to_left_witness :
  direction_code "UNKNOWN" = (-1)%Z
  /\ arrow (Some (direction_code "UNKNOWN")) = " <- ".
Proof.
  split; [reflexivity|].
  apply (other_directions_written_right_to_left "UNKNOWN");
    [discriminate|reflexivity].
Defined.

(** X13 on a file whose one record has a name and no id. *)
Lemma record_without_id_stops_writer_witness :
  In PNone (record_ids compounds_anonymous PNone)
  /\ snd (write_chems
            [(PNone, {| chem_name := PStr "water";
                        chem_inchi := PStr "InChI=1S/H2O/h1H2";
                        chem_smiles := PStr "O" |})]) = Raise.
Proof.
  assert (H : In PNone (record_ids compounds_anonymous PNone))
    by (left; reflexivity).
  split; [exact H|].
  apply (record_without_id_stops_writer services_up links_foo
           compounds_anonymous (tt, [])
           (snd (extract_chems services_up links_foo compounds_anonymous (tt, []))));
    [reflexivity|exact H].
Defined.

Lemma services_up_named :
  forall v ns w cs w' c,
    pcp_get_compounds services_up v ns w = (Ret cs, w') ->
    getitem cs 0 = Ret c -> iupac_name c <> Ret PNone.
Proof.
  intros v ns w cs w' c H G. simpl in H. injection H as <- _.
  injection G as <-. discriminate.
Qed.

(** X14 on the file of two closed records and one open. *)
Lemma extract_then_write_succeeds_witness :
  ~ In PNone (record_ids compounds_two PNone)
  /\ snd (write_chems chems_two) = Ret tt
  /\ length (fst (write_chems chems_two)) = 3.
Proof.
  assert (H : ~ In PNone (record_ids compounds_two PNone)).
  { intros [H|[H|[]]]; discriminate. }
  split; [exact H|].
  apply (extract_then_write_succeeds services_up links_foo compounds_two
           (tt, [])
           (snd (extract_chems services_up links_foo compounds_two (tt, [])))
           chems_two services_up_named H eq_refl).
Defined.

(** X15 for a record that has only the smiles, or only the inchi. *)
Lemma chem_row_columns_shift_witness :
  chem_row (PStr "CPD-1")
    {| chem_name := PStr "water"; chem_inchi := PNone; chem_smiles := PStr "O" |}
  = chem_row (PStr "CPD-1")
      {| chem_name := PStr "water"; chem_inchi := PStr "O"; chem_smiles := PNone |}.
Proof.
  apply (chem_row_columns_shift (PStr "CPD-1") (PStr "water") (PStr "O")).
  discriminate.
Defined.

(** X16 on two chemicals and one reaction, with both services answering. *)
Lemma extract_data_outcomes_witness :
  snd (fst (extract_data services_up links_foo compounds_two reactions_dat (tt, [])))
  = Ret tt
  /\ exists chems rxns cfile rfile,
       fst (extract_chems services_up links_foo compounds_two (tt, [])) = Ret chems
       /\ extract_rxns chems reactions_dat = Ret rxns
       /\ fst (fst (extract_data services_up links_foo compounds_two
                      reactions_dat (tt, [])))
          = {| chemicals_txt := Some cfile; reactions_txt := Some rfile |}
       /\ length cfile = S (length chems)
       /\ length rfile = S (length rxns).
Proof.
  split; [reflexivity|].
  destruct (extract_data_outcomes services_up links_foo compounds_two
              reactions_dat (tt, [])
              (fst (fst (extract_data services_up links_foo compounds_two
                           reactions_dat (tt, []))))
              (Ret tt) eq_refl) as [[Hr _]|[_ H]]; [discriminate|exact H].
Defined.

(** X17 for a link line that lacks the name column. *)
Lemma load_chem_links_short_line_witness :
  length (PyStr.split PyStr.TAB
            (line ("CPD-2" ++ PyStr.TAB ++ "InChI=1S/H2O/h1H2" ++ PyStr.TAB ++ "O")))
  = 3
  /\ load_chem_links
       (compound_links_dat
        ++ [line ("CPD-2" ++ PyStr.TAB ++ "InChI=1S/H2O/h1H2" ++ PyStr.TAB ++ "O")])
     = Raise.
Proof.
  split; [reflexivity|].
  apply (load_chem_links_short_line compound_links_dat []);
    [reflexivity|simpl; lia].
Defined.

(** X18 for an empty line in the middle of the file. *)
Lemma load_rxn_links_one_column_witness :
  load_rxn_links ([line ("RXN-1" ++ PyStr.TAB ++ "EC-1.1.1.1")]
                  ++ line "" :: rxn_links_lines)
  = Raise.
Proof.
  apply (load_rxn_links_one_column [line ("RXN-1" ++ PyStr.TAB ++ "EC-1.1.1.1")]
           rxn_links_lines (line ""));
    [reflexivity|simpl; lia].
Defined.

(** X19 for a name with markup, brackets and an article. *)
Lemma load_chem_links_names_clean_witness :
  load_chem_links compound_links_dat = Ret [("CPD-1", link_water)]
  /\ occurs "["%char (link_name link_water) = false.
Proof.
  split; [reflexivity|].
  apply (load_chem_links_names_clean compound_links_dat
           [("CPD-1", link_water)] "CPD-1" link_water "["%char);
    [reflexivity|reflexivity|simpl; auto].
Defined.

(** X20 for the reaction with two codes. *)
Lemma load_rxn_links_codes_nonempty_witness :
  dict_get [("RXN-1", ["1.1.1.1"]); ("RXN-3", ["2.7.1.1"; "2.7.1.2"])] "RXN-3"
  = Some ["2.7.1.1"; "2.7.1.2"]
  /\ ["2.7.1.1"; "2.7.1.2"] <> [].
Proof.
  split; [reflexivity|].
  apply (load_rxn_links_codes_nonempty rxn_links_lines
           [("RXN-1", ["1.1.1.1"]); ("RXN-3", ["2.7.1.1"; "2.7.1.2"])] "RXN-3");
    reflexivity.
Defined.

(** X23 for a name that needs no cleaning. *)
Lemma normalize_name_plain_witness : normalize_name "D-glucose" = "D-glucose".
Proof.
  apply normalize_name_plain; try reflexivity.
  intros c [<-|[<-|[<-|[<-|[]]]]]; reflexivity.
Defined.
